(** * Roslyn language server lifecycle (src/lsptoolshost/roslynLanguageServer.ts)

    A shallow embedding of the [RoslynLanguageServer] class: the launch of the
    external server process, the negotiation with the C# Devkit extension and
    the start / stop / restart life cycle.

    The class is asynchronous glue around the editor host.  Its methods are
    embedded in a reader + state + exception monad [M]:
    - the reader part, [Host], is everything the code asks of its
      surroundings (options provider, file system, installed extensions,
      outcome of awaited promises);
    - the state part, [Server], holds the two private fields of the instance,
      the language clients created so far, and the effects performed, newest
      first;
    - a thrown [Error] (a rejected promise once the method is [async]) is the
      [Throws] outcome; the state reached when the error was raised is kept.

    An [await] on a promise of the host is read from [Host] as its outcome;
    the host is taken as it stands while one operation runs, and operations
    are run one at a time, as the single event loop does when the callers
    serialise the life-cycle calls. *)

From Stdlib Require Import String Ascii ZArith Lia.
From stdpp Require Import base option list strings gmap.

Open Scope string_scope.
Open Scope list_scope.
Open Scope stdpp_scope.

(** ** Strings *)

(** [String.prototype.endsWith]: the last [length suffix] characters of [s]
    are compared with [suffix]; a suffix longer than [s] never matches. *)
Definition endsWith (s suffix : string) : bool :=
  let n := String.length s in
  let m := String.length suffix in
  if (m <=? n)%nat then String.eqb (substring (n - m) m s) suffix else false.

(** Truthiness of a value of type [string | undefined]: [undefined] and the
    empty string are falsy. *)
Definition truthy (v : option string) : bool :=
  match v with
  | Some s => negb (String.eqb s "")
  | None => false
  end.

(** Truthiness of a value of type [object | undefined]. *)
Definition present {A : Type} (v : option A) : bool :=
  match v with
  | Some _ => true
  | None => false
  end.

(** ** Values exchanged with the host *)

Inductive JSError : Type :=
| Error (message : string).

(** [Trace] of vscode-languageclient, as far as the module uses it. *)
Inductive Trace : Type :=
| Off
| Messages
| Verbose.

(** Settled state of a promise, or result of a call that may throw. *)
Inductive Outcome (A : Type) : Type :=
| Returns (a : A)
| Throws (e : JSError).
Arguments Returns {A} a.
Arguments Throws {A} e.

(** [vscode.Uri]: the file-system path and the text given by [toString()]. *)
Record Uri : Type := {
  fsPath : string;
  uriText : string
}.

(** The handle returned by [cp.spawn(command, args)]. *)
Record ChildProcess : Type := {
  spawnCommand : string;
  spawnArguments : list string
}.

Record CommonOptions : Type := {
  serverPath : option string;
  waitForDebugger : bool
}.

Record LanguageServerOptions : Type := {
  logLevel : string
}.

Record Options : Type := {
  commonOptions : CommonOptions;
  languageServerOptions : LanguageServerOptions
}.

(** The object exported by C# Devkit.  [getBrokeredServiceServerPipeName] is
    [None] when the property is not [in] the object, and otherwise the
    settled state of the promise its call returns; [components] is the
    optional component map. *)
Record DevkitExports : Type := {
  getBrokeredServiceServerPipeName : option (Outcome (option string));
  components : option (gmap string string)
}.

(** [vscode.Extension]: [activate()] settles to the exports object, or to
    [undefined] ([None]). *)
Record Extension : Type := {
  activate : Outcome (option DevkitExports)
}.

Record Host : Type := {
  isWindows : bool;
  isMacOS : bool;
  GetLatestOptions : Options;
  getHostExecutableInfo : Outcome string;
  findFiles : list Uri;
  existsSync : string -> bool;
  dirname : string;
  pathJoin : list string -> string;
  getExtension : string -> option Extension;
  clientStopOutcome : nat -> Z -> Outcome unit
}.

(** ** State of the instance *)

(** Where a language client stands.  A client is created by [start()], is
    [Running] once its server factory returned a process, keeps the error
    when the factory threw, and is [Stopped] once [stop(timeout)]
    resolved. *)
Inductive Phase : Type :=
| Created
| Running (child : ChildProcess)
| StartFailed (e : JSError)
| Stopped.

Record Client : Type := {
  phase : Phase;
  clientTrace : option Trace
}.

Inductive Effect : Type :=
| AppendLine (line : string)
| SpawnProcess (child : ChildProcess)
| InformationMessage (message title command : string)
| ClientStarted (id : nat)
| ClientStopRequested (id : nat) (timeout : Z)
| ClientDisposed (id : nat) (timeout : Z)
| RazorRegistered (id : nat).

Record Server : Type := {
  _languageClient : option nat;
  _wasActivatedWithCSharpDevkit : option bool;
  clients : list Client;
  effects : list Effect
}.

Definition set_languageClient (c : option nat) (s : Server) : Server :=
  {| _languageClient := c;
     _wasActivatedWithCSharpDevkit := _wasActivatedWithCSharpDevkit s;
     clients := clients s;
     effects := effects s |}.

Definition set_wasActivatedWithCSharpDevkit (b : option bool) (s : Server) : Server :=
  {| _languageClient := _languageClient s;
     _wasActivatedWithCSharpDevkit := b;
     clients := clients s;
     effects := effects s |}.

Definition set_clients (cs : list Client) (s : Server) : Server :=
  {| _languageClient := _languageClient s;
     _wasActivatedWithCSharpDevkit := _wasActivatedWithCSharpDevkit s;
     clients := cs;
     effects := effects s |}.

Definition emit (e : Effect) (s : Server) : Server :=
  {| _languageClient := _languageClient s;
     _wasActivatedWithCSharpDevkit := _wasActivatedWithCSharpDevkit s;
     clients := clients s;
     effects := e :: effects s |}.

(** Whether the three [roslyn.*] commands are registered with the host: they
    are from the first [registerRazor] that got through, since nothing ever
    disposes of them. *)
Definition isRazorRegistration (e : Effect) : bool :=
  match e with
  | RazorRegistered _ => true
  | _ => false
  end.

Definition razorRegistered (s : Server) : bool :=
  existsb isRazorRegistration (effects s).

(** The instance as the constructor leaves it. *)
Definition newServer : Server :=
  {| _languageClient := None;
     _wasActivatedWithCSharpDevkit := None;
     clients := [];
     effects := [] |}.

(** ** The monad of the methods *)

Definition M (A : Type) : Type := Host -> Server -> Outcome A * Server.

#[global] Instance M_ret : MRet M := fun A a _ s => (Returns a, s).

#[global] Instance M_bind : MBind M := fun A B f m h s =>
  match m h s with
  | (Returns a, s') => f a h s'
  | (Throws e, s') => (Throws e, s')
  end.

Definition throw {A : Type} (e : JSError) : M A := fun _ s => (Throws e, s).

Definition ask {A : Type} (f : Host -> A) : M A := fun h s => (Returns (f h), s).

Definition field {A : Type} (f : Server -> A) : M A := fun _ s => (Returns (f s), s).

Definition update (f : Server -> Server) : M unit := fun _ s => (Returns tt, f s).

(** [await p] for a promise of the host whose settled state is [p]. *)
Definition await {A : Type} (p : Outcome A) : M A := fun _ s => (p, s).

(** Runs [m] and hands back how it ended instead of throwing. *)
Definition attempt {A : Type} (m : M A) : M (Outcome A) := fun h s =>
  let '(outcome, s') := m h s in (Returns outcome, s').

Definition appendLine (line : string) : M unit := update (emit (AppendLine line)).

(** ** Constants of the module *)

Definition csharpDevkitExtensionId : string := "ms-dotnettools.csdevkit".

Definition _stopTimeout : Z := 10000.

Definition starredSuggestions : string := "@vsintellicode/starred-suggestions-csharp".

(** ** [GetTraceLevel] *)

Definition GetTraceLevel (logLevel : string) : M Trace :=
  if String.eqb logLevel "Trace" then mret Verbose
  else if String.eqb logLevel "Debug" then mret Messages
  else if String.eqb logLevel "Information" then mret Off
  else if String.eqb logLevel "Warning" then mret Off
  else if String.eqb logLevel "Error" then mret Off
  else if String.eqb logLevel "Critical" then mret Off
  else if String.eqb logLevel "None" then mret Off
  else
    appendLine ("Invalid log level " +:+ logLevel +:+
                ", server will not start. Please set the 'dotnet.server.trace' configuration to a valid value");;
    throw (Error ("Invalid log level " +:+ logLevel)).

(** ** Launching the server process *)

(** The value a truthiness test lets through. *)
Definition truthyValue (v : option string) : option string :=
  match v with
  | Some s => if String.eqb s "" then None else Some s
  | None => None
  end.

Definition getServerFileName : M string :=
  let serverFileName := "Microsoft.CodeAnalysis.LanguageServer" in
  let extension := "" in
  windows ← ask isWindows;
  let extension := if windows : bool then ".exe" else extension in
  macOS ← ask isMacOS;
  let extension := if macOS : bool then ".dll" else extension in
  mret (serverFileName +:+ extension).

Definition waitForCSharpDevkitActivationAndGetExports : M (option DevkitExports) :=
  csharpDevkitExtension ← ask (fun h => getExtension h csharpDevkitExtensionId);
  match csharpDevkitExtension with
  | None =>
      appendLine "Activating C# standalone...";;
      update (set_wasActivatedWithCSharpDevkit (Some false));;
      mret None
  | Some extension =>
      appendLine "Activating C# + Devkit...";;
      update (set_wasActivatedWithCSharpDevkit (Some true));;
      await (activate extension)
  end.

Definition getBrokeredServicePipeName (csharpDevkitExports : option DevkitExports)
  : M (option string) :=
  wasActivated ← field _wasActivatedWithCSharpDevkit;
  match wasActivated, csharpDevkitExports with
  | Some true, Some exports =>
      match getBrokeredServiceServerPipeName exports with
      | None =>
          throw (Error "C# Devkit is installed but missing expected export getBrokeredServiceServerPipeName")
      | Some call => await call
      end
  | _, _ => mret None
  end.

Definition getStarredCompletionComponentPath (csharpDevkitExports : option DevkitExports)
  : M (option string) :=
  wasActivated ← field _wasActivatedWithCSharpDevkit;
  match wasActivated, csharpDevkitExports with
  | Some true, Some exports =>
      match components exports with
      | Some map => mret (truthyValue (map !! starredSuggestions))
      | None => mret None
      end
  | _, _ => mret None
  end.

(** The argument list [startServer] builds between [let args = []] and the
    last [args.push]; [push] appends at the end. *)
Definition launchArguments (debug : bool) (logLevel brokeredServicePipeName : option string)
    (solutionPath : option Uri) (starredCompletionComponentPath : option string)
  : list string :=
  let args := [] in
  let args := if debug then args ++ ["--debug"] else args in
  let args :=
    match truthyValue logLevel with
    | Some level => args ++ ["--logLevel"; level]
    | None => args
    end in
  let args :=
    match truthyValue brokeredServicePipeName, solutionPath with
    | Some name, _ => args ++ ["--brokeredServicePipeName"; name]
    | None, Some solution => args ++ ["--solutionPath"; fsPath solution]
    | None, None => args
    end in
  let args :=
    match truthyValue starredCompletionComponentPath with
    | Some path => args ++ ["--starredCompletionComponentPath"; path]
    | None => args
    end in
  args.

Definition spawn (command : string) (args : list string) : M ChildProcess :=
  let child := {| spawnCommand := command; spawnArguments := args |} in
  update (emit (SpawnProcess child));;
  mret child.

(** The server path after the default has been filled in. *)
Definition resolveServerPath : M string :=
  clientRoot ← ask dirname;
  options ← ask GetLatestOptions;
  match truthyValue (serverPath (commonOptions options)) with
  | Some path => mret path
  | None =>
      fileName ← getServerFileName;
      join ← ask pathJoin;
      mret (join [clientRoot; ".."; ".roslyn"; fileName])
  end.

Definition startServer (solutionPath : option Uri) (logLevel : option string)
  : M ChildProcess :=
  serverPath ← resolveServerPath;
  found ← ask (fun h => existsSync h serverPath);
  (if found : bool then mret tt
   else throw (Error ("Cannot find language server in path '" +:+ serverPath +:+ "''")));;
  vsGreenExports ← waitForCSharpDevkitActivationAndGetExports;
  brokeredServicePipeName ← getBrokeredServicePipeName vsGreenExports;
  starredCompletionComponentPath ← getStarredCompletionComponentPath vsGreenExports;
  options ← ask GetLatestOptions;
  let args := launchArguments (waitForDebugger (commonOptions options)) logLevel
                brokeredServicePipeName solutionPath starredCompletionComponentPath in
  appendLine ("Starting server at " +:+ serverPath);;
  if endsWith serverPath ".dll" then spawn "dotnet" ([serverPath] ++ args)
  else spawn serverPath args.

(** ** The language client

    [LanguageClient] belongs to vscode-languageclient.  What the class relies
    on: the constructor keeps the server factory; [start()] returns at once
    and sets the launch going, which calls the factory; a factory that throws
    leaves the client unstarted, with the error in the promise [start()]
    returned; a client that reaches [State.Running] notifies the
    [onDidChangeState] listeners; [stop(timeout)] settles as the host says. *)

Definition newLanguageClient : M nat := fun _ s =>
  (Returns (length (clients s)),
   set_clients (clients s ++ [{| phase := Created; clientTrace := None |}]) s).

Definition setClient (id : nat) (c : Client) (s : Server) : Server :=
  set_clients (<[id := c]> (clients s)) s.

Definition setPhase (id : nat) (p : Phase) (s : Server) : Server :=
  set_clients (alter (fun c => {| phase := p; clientTrace := clientTrace c |}) id (clients s)) s.

Definition clientStart (id : nat) : M unit := update (emit (ClientStarted id)).

(** The launch [client.start()] set going.  Nobody awaits it: whatever the
    factory does, the launch itself hands no error to the code that called
    [start()].  The listener registered by [start()] sets the trace level
    once the client runs; a client whose factory returned a process is
    taken to reach [State.Running]. *)
Definition clientLaunch (id : nat) (serverOptions : M ChildProcess)
    (languageClientTraceLevel : Trace) : M unit := fun h s =>
  match serverOptions h s with
  | (Returns child, s') =>
      (Returns tt,
       setClient id {| phase := Running child;
                       clientTrace := Some languageClientTraceLevel |} s')
  | (Throws e, s') =>
      (Returns tt, setClient id {| phase := StartFailed e; clientTrace := None |} s')
  end.

Definition clientStop (id : nat) (timeout : Z) : M unit :=
  update (emit (ClientStopRequested id timeout));;
  outcome ← ask (fun h => clientStopOutcome h id timeout);
  await outcome;;
  update (setPhase id Stopped).

Definition clientDispose (id : nat) (timeout : Z) : M unit :=
  update (emit (ClientDisposed id timeout)).

(** What [vscode.commands.registerCommand] throws for a command id that is
    registered already. *)
Definition commandExists : JSError :=
  Error "command 'roslyn.openRazorCSharp' already exists".

(** [registerRazor] hooks the two Razor handlers onto the client and then
    registers the commands [roslyn.openRazorCSharp],
    [roslyn.changeRazorCSharp] and [roslyn.closeRazorCSharp] with the host.
    It keeps none of the disposables, so the commands of the first call stay
    registered, and the host refuses the first of them on every later
    call. *)
Definition registerRazor (client : nat) : M unit :=
  registered ← field razorRegistered;
  if registered : bool then throw commandExists
  else update (emit (RazorRegistered client)).

(** ** Life cycle

    [start()] builds the client, calls its [start()] without awaiting it and
    registers the Razor handlers; the launch so set going, which calls
    [startServer], runs when [start()] has nothing left to do, whether
    [start()] came to its end or threw in [registerRazor].  The options
    of the client other than the server factory and the trace level
    (document selector, file watcher, URI converters, configuration
    middleware) are handed to the library and not looked at again. *)

Definition start : M unit :=
  options ← ask GetLatestOptions;
  resolvedDotnet ← (p ← ask getHostExecutableInfo; await p);
  appendLine ("Dotnet version: " +:+ resolvedDotnet);;
  solutions ← ask findFiles;
  let solutionPath := head solutions in
  match solutionPath with
  | Some solution => appendLine ("Found solution " +:+ uriText solution)
  | None => mret tt
  end;;
  let logLevel := logLevel (languageServerOptions options) in
  languageClientTraceLevel ← GetTraceLevel logLevel;
  let serverOptions := startServer solutionPath (Some logLevel) in
  client ← newLanguageClient;
  update (set_languageClient (Some client));;
  clientStart client;;
  registered ← attempt (registerRazor client);
  clientLaunch client serverOptions languageClientTraceLevel;;
  await registered.

Definition stop : M unit :=
  client ← field _languageClient;
  match client with
  | Some id => clientStop id _stopTimeout
  | None => mret tt
  end;;
  client ← field _languageClient;
  match client with
  | Some id => clientDispose id _stopTimeout
  | None => mret tt
  end;;
  update (set_languageClient None).

Definition restart : M unit :=
  stop;;
  start.

(** The listener the constructor subscribes to [vscode.extensions.onDidChange]. *)
Definition onDidChange : M unit :=
  csharpDevkitExtension ← ask (fun h => getExtension h csharpDevkitExtensionId);
  wasActivated ← field _wasActivatedWithCSharpDevkit;
  match wasActivated with
  | None => mret tt
  | Some activatedWithDevkit =>
      let title := "Restart Language Server" in
      let command := "dotnet.restartServer" in
      if present csharpDevkitExtension && negb activatedWithDevkit then
        appendLine ("Detected new installation of " +:+ csharpDevkitExtensionId);;
        let message := "Detected installation of " +:+ csharpDevkitExtensionId +:+
                       ". Would you like to relaunch the language server for added features?" in
        update (emit (InformationMessage message title command))
      else mret tt
  end.

(** ** Module level

    [_languageServer] is unset until [activateRoslynLanguageServer] has
    built the instance; [deactivate] stops it when it is there. *)

Definition activateRoslynLanguageServer (h : Host) : Outcome unit * Server :=
  start h newServer.

Definition deactivate (h : Host) (_languageServer : option Server)
  : Outcome unit * option Server :=
  match _languageServer with
  | None => (Returns tt, None)
  | Some s => let '(result, s') := stop h s in (result, Some s')
  end.

(** ** Observations on a state *)

(** The processes spawned so far, newest first. *)
Definition spawned (s : Server) : list ChildProcess :=
  omap (fun e => match e with SpawnProcess child => Some child | _ => None end) (effects s).

(** ** Sample hosts *)

(** [path.join] of Node on a POSIX platform, for the sample hosts: the
    non-empty segments are joined with [/] and the result is normalised,
    [.] and empty segments dropped and [..] taking back the segment before
    it. *)
Fixpoint splitSlash (path current : string) : list string :=
  match path with
  | EmptyString => [current]
  | String c rest =>
      if Ascii.eqb c "/"%char then current :: splitSlash rest ""
      else splitSlash rest (current +:+ String c "")
  end.

Fixpoint normalizeSegments (absolute : bool) (segments kept : list string) : list string :=
  match segments with
  | [] => rev kept
  | segment :: rest =>
      if String.eqb segment "" || String.eqb segment "." then
        normalizeSegments absolute rest kept
      else if String.eqb segment ".." then
        match kept with
        | last :: before =>
            if String.eqb last ".." then normalizeSegments absolute rest (segment :: kept)
            else normalizeSegments absolute rest before
        | [] =>
            if absolute then normalizeSegments absolute rest kept
            else normalizeSegments absolute rest [segment]
        end
      else normalizeSegments absolute rest (segment :: kept)
  end.

Definition posixNormalize (path : string) : string :=
  if String.eqb path "" then "."
  else
    let absolute := String.prefix "/" path in
    let trailing := endsWith path "/" in
    let body := String.concat "/" (normalizeSegments absolute (splitSlash path "") []) in
    let body := if String.eqb body "" && negb absolute then "." else body in
    let body := if negb (String.eqb body "") && trailing then body +:+ "/" else body in
    if absolute then "/" +:+ body else body.

Definition posixJoin (segments : list string) : string :=
  match filter (fun segment => segment <> "") segments with
  | [] => "."
  | kept => posixNormalize (String.concat "/" kept)
  end.

Definition sampleOptions (path : option string) (level : string) : Options :=
  {| commonOptions := {| serverPath := path; waitForDebugger := false |};
     languageServerOptions := {| logLevel := level |} |}.

(** A Linux host with the server at [/opt/roslyn/server] and the bundle at
    [/opt/roslyn/server.dll], one solution in the workspace, and whatever
    extension table is given. *)
Definition sampleHost (path : option string) (level : string)
    (extensions : string -> option Extension) (stops : Outcome unit) : Host :=
  {| isWindows := false;
     isMacOS := false;
     GetLatestOptions := sampleOptions path level;
     getHostExecutableInfo := Returns "7.0.100";
     findFiles := [{| fsPath := "/work/app.sln"; uriText := "file:///work/app.sln" |}];
     existsSync := fun p => bool_decide (p ∈ ["/opt/roslyn/server"; "/opt/roslyn/server.dll"]);
     dirname := "/ext/dist";
     pathJoin := posixJoin;
     getExtension := extensions;
     clientStopOutcome := fun _ _ => stops |}.

Definition noExtensions : string -> option Extension := fun _ => None.

Definition devkitWith (exports : Outcome (option DevkitExports)) : string -> option Extension :=
  fun id => if String.eqb id csharpDevkitExtensionId then Some {| activate := exports |} else None.

(** A Devkit that exports a pipe name and the starred-suggestions component. *)
Definition fullExports : DevkitExports :=
  {| getBrokeredServiceServerPipeName := Some (Returns (Some "pipe-7f3a"));
     components := Some {[ starredSuggestions := "/devkit/starred" ]} |}.

(** A Devkit whose exports object has neither property. *)
Definition emptyExports : DevkitExports :=
  {| getBrokeredServiceServerPipeName := None; components := None |}.

Definition timedOut : Outcome unit := Throws (Error "Stopping the server timed out").

Definition linuxHost : Host :=
  sampleHost (Some "/opt/roslyn/server") "Debug" noExtensions (Returns tt).

(** The same host with a client whose graceful shutdown times out. *)
Definition timeoutHost : Host :=
  sampleHost (Some "/opt/roslyn/server") "Debug" noExtensions timedOut.


(** The log level is not one of the recognized ones. *)
Definition loudHost : Host :=
  sampleHost (Some "/opt/roslyn/server") "Loud" noExtensions (Returns tt).

(** The server is the bundle and Devkit exports everything. *)
Definition dllDevkitHost : Host :=
  sampleHost (Some "/opt/roslyn/server.dll") "Trace"
    (devkitWith (Returns (Some fullExports))) (Returns tt).

(** Devkit is installed; its exports object lacks the pipe-name export. *)
Definition brokenDevkitHost : Host :=
  sampleHost (Some "/opt/roslyn/server") "Debug"
    (devkitWith (Returns (Some emptyExports))) (Returns tt).

(** Devkit is installed; its activation resolves to [undefined]. *)
Definition silentDevkitHost : Host :=
  sampleHost (Some "/opt/roslyn/server") "Debug"
    (devkitWith (Returns None)) (Returns tt).

(** ** Vocabulary of the properties *)

Definition recognizedLogLevels : list string :=
  ["Trace"; "Debug"; "Information"; "Warning"; "Error"; "Critical"; "None"].

(** The mapping of log levels as the settings surface words it: [Trace] to
    Verbose, [Debug] to Messages, all others to Off. *)
Definition specifiedVerbosity (logLevel : string) : Trace :=
  if String.eqb logLevel "Trace" then Verbose
  else if String.eqb logLevel "Debug" then Messages
  else Off.

(** The command line of the server is read option by option: the switch
    [--debug] stands alone, any other option takes the next token as its
    value. *)
Fixpoint flagsOf (args : list string) : list (string * option string) :=
  match args with
  | [] => []
  | flag :: rest =>
      if String.eqb flag "--debug" then (flag, None) :: flagsOf rest
      else
        match rest with
        | [] => [(flag, None)]
        | value :: rest' => (flag, Some value) :: flagsOf rest'
        end
  end.

(** The values given to [flag], one entry per occurrence of the flag. *)
Definition valuesOf (flag : string) (flags : list (string * option string))
  : list (option string) :=
  omap (fun '(name, value) => if String.eqb name flag then Some value else None) flags.

(** The server path of a host, as [startServer] resolves it. *)
Definition serverPathOf (h : Host) : string :=
  match fst (resolveServerPath h newServer) with
  | Returns path => path
  | Throws _ => ""
  end.

(** The instance once [waitForCSharpDevkitActivationAndGetExports] has
    logged and recorded which activation this is. *)
Definition standalone (s : Server) : Server :=
  set_wasActivatedWithCSharpDevkit (Some false)
    (emit (AppendLine "Activating C# standalone...") s).

Definition withDevkit (s : Server) : Server :=
  set_wasActivatedWithCSharpDevkit (Some true)
    (emit (AppendLine "Activating C# + Devkit...") s).

(** The starred-suggestions component of an exports object, when truthy. *)
Definition starredOf (exports : DevkitExports) : option string :=
  match components exports with
  | Some map => truthyValue (map !! starredSuggestions)
  | None => None
  end.

(** The three negotiation steps of [startServer], in its order. *)
Definition negotiate : M (option string * option string) :=
  vsGreenExports ← waitForCSharpDevkitActivationAndGetExports;
  brokeredServicePipeName ← getBrokeredServicePipeName vsGreenExports;
  starredCompletionComponentPath ← getStarredCompletionComponentPath vsGreenExports;
  mret (brokeredServicePipeName, starredCompletionComponentPath).

(** Resolving the brokered-service pipe name: the first two of them. *)
Definition resolvePipeName : M (option string) :=
  vsGreenExports ← waitForCSharpDevkitActivationAndGetExports;
  getBrokeredServicePipeName vsGreenExports.

(** What [startServer] hands to [cp.spawn] for a built argument list. *)
Definition spawnFor (serverPath : string) (args : list string) : ChildProcess :=
  if endsWith serverPath ".dll"
  then {| spawnCommand := "dotnet"; spawnArguments := serverPath :: args |}
  else {| spawnCommand := serverPath; spawnArguments := args |}.

Definition notFound (serverPath : string) : JSError :=
  Error ("Cannot find language server in path '" +:+ serverPath +:+ "''").

Definition missingExport : JSError :=
  Error "C# Devkit is installed but missing expected export getBrokeredServiceServerPipeName".

(** The prompts shown so far, newest first. *)
Definition isPrompt (e : Effect) : bool :=
  match e with
  | InformationMessage _ _ _ => true
  | _ => false
  end.

Definition prompts (s : Server) : list Effect :=
  filter (fun e => isPrompt e = true) (effects s).

Definition restartPrompt : Effect :=
  InformationMessage
    "Detected installation of ms-dotnettools.csdevkit. Would you like to relaunch the language server for added features?"
    "Restart Language Server" "dotnet.restartServer".

(** A client handle is live from its creation until its [stop] resolved. *)
Definition isLive (c : Client) : bool :=
  match phase c with
  | Stopped => false
  | _ => true
  end.

Definition liveCount (s : Server) : nat :=
  length (filter (fun c => isLive c = true) (clients s)).

(** Every live client is the one the instance holds. *)
Definition ownsLive (s : Server) : Prop :=
  forall id c, clients s !! id = Some c -> isLive c = true -> _languageClient s = Some id.

(** No client is live. *)
Definition noLive (s : Server) : Prop :=
  forall id c, clients s !! id = Some c -> isLive c = false.

(** The states of the instance: [activateRoslynLanguageServer] starts a new
    instance; afterwards come the restart command, [deactivate] (which calls
    [stop]) and extension-change events, each under the host of its time. *)
Inductive reachable : Server -> Prop :=
| reach_activate (h : Host) :
    reachable (snd (activateRoslynLanguageServer h))
| reach_restart (h : Host) (s : Server) :
    reachable s -> reachable (snd (restart h s))
| reach_deactivate (h : Host) (s : Server) :
    reachable s -> reachable (snd (stop h s))
| reach_extensionsChanged (h : Host) (s : Server) :
    reachable s -> reachable (snd (onDidChange h s)).


(** [stop()] read as: whenever a handle exists, shutdown is requested, the
    client disposed and the handle cleared. *)
Definition stopAlwaysClearsHandle (h : Host) (s : Server) : Prop :=
  forall id, _languageClient s = Some id ->
  exists s', stop h s = (Returns tt, s') /\
    _languageClient s' = None /\
    effects s' = ClientDisposed id 10000 :: ClientStopRequested id 10000 :: effects s.

(** ** Further vocabulary *)

(** The file name of the bundled server on a host, as [getServerFileName]
    gives it. *)
Definition serverFileNameOf (h : Host) : string :=
  match fst (getServerFileName h newServer) with
  | Returns name => name
  | Throws _ => ""
  end.

(** The instance once [start()] has logged the runtime version and the
    solution it found, if any. *)
Definition announced (h : Host) (version : string) (s : Server) : Server :=
  match head (findFiles h) with
  | Some solution =>
      emit (AppendLine ("Found solution " +:+ uriText solution))
        (emit (AppendLine ("Dotnet version: " +:+ version)) s)
  | None => emit (AppendLine ("Dotnet version: " +:+ version)) s
  end.

(** The instance when [start()] has created client [length (clients s)],
    taken it as its handle, called its [start()] and been through
    [registerRazor], which registers the commands unless they are registered
    already: the state in which the launch calls [startServer]. *)
Definition prepared (h : Host) (version : string) (s : Server) : Server :=
  let id := length (clients s) in
  let started :=
    emit (ClientStarted id)
      (set_languageClient (Some id)
         (set_clients (clients s ++ [{| phase := Created; clientTrace := None |}])
            (announced h version s))) in
  if razorRegistered s then started else emit (RazorRegistered id) started.

(** How [start()] ends once its client is created: [registerRazor] decides. *)
Definition registration (s : Server) : Outcome unit :=
  if razorRegistered s then Throws commandExists else Returns tt.

(** The instance after [n] extension-change events on host [h]. *)
Definition afterEvents (h : Host) (n : nat) (s : Server) : Server :=
  Nat.iter n (fun s' => snd (onDidChange h s')) s.

(** The flags a command line is expected to read as, for the options
    [startServer] was given: in this order, the debug switch, the log level,
    the pipe name or else the solution path, the component path. *)
Definition expectedFlags (debug : bool) (logLevel pipe : option string)
    (solutionPath : option Uri) (starred : option string)
  : list (string * option string) :=
  (if debug then [("--debug", None)] else []) ++
  match truthyValue logLevel with
  | Some level => [("--logLevel", Some level)]
  | None => []
  end ++
  match truthyValue pipe, solutionPath with
  | Some name, _ => [("--brokeredServicePipeName", Some name)]
  | None, Some solution => [("--solutionPath", Some (fsPath solution))]
  | None, None => []
  end ++
  match truthyValue starred with
  | Some path => [("--starredCompletionComponentPath", Some path)]
  | None => []
  end.

(** A macOS host without a server path in its options: the bundled server
    under the extension's [.roslyn] directory is the one there is. *)
Definition macHost : Host :=
  {| isWindows := false;
     isMacOS := true;
     GetLatestOptions := sampleOptions None "Information";
     getHostExecutableInfo := Returns "7.0.100";
     findFiles := [];
     existsSync := fun p =>
       String.eqb p "/ext/.roslyn/Microsoft.CodeAnalysis.LanguageServer.dll";
     dirname := "/ext/dist";
     pathJoin := posixJoin;
     getExtension := noExtensions;
     clientStopOutcome := fun _ _ => Returns tt |}.


(** Devkit is installed and its activation rejects. *)
Definition failingDevkitHost : Host :=
  sampleHost (Some "/opt/roslyn/server") "Debug"
    (devkitWith (Throws (Error "Devkit failed to activate"))) (Returns tt).

(** Devkit exports a pipe name and no component map. *)
Definition pipeOnlyExports : DevkitExports :=
  {| getBrokeredServiceServerPipeName := Some (Returns (Some "pipe-7f3a"));
     components := None |}.

Definition pipeOnlyDevkitHost : Host :=
  sampleHost (Some "/opt/roslyn/server") "Debug"
    (devkitWith (Returns (Some pipeOnlyExports))) (Returns tt).

(** * Properties *)

(** Runs the monadic plumbing of a method. *)
Ltac run :=
  repeat (progress (unfold mbind, mret, M_bind, M_ret, throw, ask, field, update,
                      await, appendLine in *; cbn in * )).

(** ** Suffixes of strings *)

Lemma substring_all (s : string) : substring 0 (String.length s) s = s.
Proof. induction s as [|c s IH]; simpl; [done | by f_equal]. Qed.

Lemma substring_skip (stem s : string) (m : nat) :
  substring (String.length stem) m (stem +:+ s) = substring 0 m s.
Proof. induction stem as [|c stem IH]; simpl; [done | exact IH]. Qed.

Lemma length_append (a b : string) :
  String.length (a +:+ b) = (String.length a + String.length b)%nat.
Proof. induction a as [|c a IH]; simpl; [done | by f_equal]. Qed.

Lemma substring_split (s : string) (k : nat) :
  (k <= String.length s)%nat ->
  s = substring 0 k s +:+ substring k (String.length s - k) s.
Proof.
  revert k. induction s as [|c s IH]; intros k Hk.
  - by destruct k.
  - destruct k as [|k].
    + change (String c s = String c (substring 0 (String.length s) s)).
      by rewrite substring_all.
    + change (String c s =
              String c (substring 0 k s +:+ substring k (String.length s - k) s)).
      f_equal. apply IH. simpl in Hk. lia.
Qed.

(** [endsWith] holds exactly of the strings that are some stem followed by
    the suffix. *)
Lemma endsWith_spec (s suffix : string) :
  endsWith s suffix = true <-> exists stem, s = stem +:+ suffix.
Proof.
  unfold endsWith. split.
  - destruct (Nat.leb_spec (String.length suffix) (String.length s)) as [Hle|]; [|done].
    intros Heq%String.eqb_eq.
    exists (substring 0 (String.length s - String.length suffix) s).
    etrans; [apply (substring_split s (String.length s - String.length suffix)); lia|].
    f_equal. rewrite <- Heq at 3. f_equal. lia.
  - intros [stem ->]. rewrite length_append.
    destruct (Nat.leb_spec (String.length suffix) (String.length stem + String.length suffix))
      as [_|]; [|lia].
    replace (String.length stem + String.length suffix - String.length suffix)%nat
      with (String.length stem) by lia.
    rewrite substring_skip, substring_all. apply String.eqb_refl.
Qed.

Lemma truthy_truthyValue (v : option string) :
  truthy v = bool_decide (is_Some (truthyValue v)).
Proof. destruct v as [s|]; [|done]. simpl. by destruct (String.eqb s ""). Qed.

(** ** Lists of clients *)

Lemma insert_last {A : Type} (l : list A) (x y : A) :
  <[length l := y]> (l ++ [x]) = l ++ [y].
Proof. rewrite <- (Nat.add_0_r (length l)) at 1. by rewrite insert_app_r. Qed.

Lemma filter_live_nil (cs : list Client) :
  (forall id c, cs !! id = Some c -> isLive c = false) ->
  filter (fun c => isLive c = true) cs = [].
Proof.
  induction cs as [|c cs IH]; intros Hnone; [done|].
  rewrite filter_cons. destruct (decide (isLive c = true)) as [Hlive|_].
  - specialize (Hnone 0%nat c eq_refl). congruence.
  - apply IH. intros id c' Hc'. by apply (Hnone (S id)).
Qed.

Lemma filter_live_held (cs : list Client) (held : option nat) :
  (forall id c, cs !! id = Some c -> isLive c = true -> held = Some id) ->
  (length (filter (fun c => isLive c = true) cs) <= 1)%nat.
Proof.
  revert held. induction cs as [|c cs IH]; intros held Howns; [cbn; lia|].
  rewrite filter_cons. destruct (decide (isLive c = true)) as [Hlive|_].
  - pose proof (Howns 0%nat c eq_refl Hlive) as Hheld.
    rewrite (filter_live_nil cs); [cbn; lia|].
    intros id c' Hid. destruct (isLive c') eqn:Hlive'; [|done].
    pose proof (Howns (S id) c' Hid Hlive'). congruence.
  - apply (IH (pred <$> held)). intros id c' Hid Hlive'.
    by rewrite (Howns (S id) c' Hid Hlive').
Qed.

Lemma noLive_liveCount (s : Server) : noLive s -> liveCount s = 0%nat.
Proof. intros Hnone. unfold liveCount. by rewrite filter_live_nil. Qed.

Lemma ownsLive_liveCount (s : Server) : ownsLive s -> (liveCount s <= 1)%nat.
Proof. intros Howns. by apply (filter_live_held _ (_languageClient s)). Qed.

Lemma ownsLive_noLive (s : Server) :
  ownsLive s -> _languageClient s = None -> noLive s.
Proof.
  intros Howns Hnone id c Hid. destruct (isLive c) eqn:Hlive; [|done].
  pose proof (Howns id c Hid Hlive). congruence.
Qed.

Lemma noLive_ownsLive (s : Server) : noLive s -> ownsLive s.
Proof. intros Hnone id c Hid Hlive. pose proof (Hnone id c Hid). congruence. Qed.

Lemma set_languageClient_same (s : Server) :
  set_languageClient (_languageClient s) s = s.
Proof. by destruct s. Qed.

(** ** The argument list *)

Lemma valuesOf_solutionPath debug logLevel pipe solutionPath starred :
  valuesOf "--solutionPath"
    (flagsOf (launchArguments debug logLevel pipe solutionPath starred)) =
  match truthyValue pipe, solutionPath with
  | None, Some solution => [Some (fsPath solution)]
  | _, _ => []
  end.
Proof.
  unfold launchArguments.
  destruct debug, (truthyValue logLevel), (truthyValue pipe), solutionPath,
    (truthyValue starred); reflexivity.
Qed.

Lemma solutionPath_tokens debug logLevel pipe solution starred :
  truthyValue pipe = None ->
  exists before after,
    launchArguments debug logLevel pipe (Some solution) starred =
      before ++ "--solutionPath" :: fsPath solution :: after.
Proof.
  intros Hpipe.
  exists ((if debug then ["--debug"] else []) ++
          match truthyValue logLevel with
          | Some level => ["--logLevel"; level]
          | None => []
          end),
         match truthyValue starred with
         | Some path => ["--starredCompletionComponentPath"; path]
         | None => []
         end.
  unfold launchArguments. rewrite Hpipe.
  by destruct debug, (truthyValue logLevel), (truthyValue starred).
Qed.

(** ** What each method does on a given host *)

Section OnHost.
Context (h : Host).

Lemma GetTraceLevel_recognized (s : Server) (level : string) :
  level ∈ recognizedLogLevels ->
  GetTraceLevel level h s = (Returns (specifiedVerbosity level), s).
Proof.
  unfold recognizedLogLevels. rewrite !elem_of_cons, elem_of_nil.
  intros [->|[->|[->|[->|[->|[->|[->|[]]]]]]]]; reflexivity.
Qed.

Lemma GetTraceLevel_unrecognized (s : Server) (level : string) :
  level ∉ recognizedLogLevels ->
  GetTraceLevel level h s =
    (Throws (Error ("Invalid log level " +:+ level)),
     emit (AppendLine ("Invalid log level " +:+ level +:+
             ", server will not start. Please set the 'dotnet.server.trace' configuration to a valid value")) s).
Proof.
  unfold recognizedLogLevels. rewrite !not_elem_of_cons.
  intros (H1 & H2 & H3 & H4 & H5 & H6 & H7 & _).
  unfold GetTraceLevel.
  apply String.eqb_neq in H1, H2, H3, H4, H5, H6, H7.
  by rewrite H1, H2, H3, H4, H5, H6, H7.
Qed.

(** Whatever the level, [GetTraceLevel] at most appends lines to the
    channel. *)
Lemma GetTraceLevel_state (s : Server) (level : string) :
  exists lines,
    snd (GetTraceLevel level h s) = foldr (fun line => emit (AppendLine line)) s lines.
Proof.
  destruct (decide (level ∈ recognizedLogLevels)).
  - exists []. by rewrite GetTraceLevel_recognized.
  - eexists [_]. by rewrite GetTraceLevel_unrecognized.
Qed.

Lemma resolveServerPath_run (s : Server) :
  resolveServerPath h s = (Returns (serverPathOf h), s).
Proof.
  unfold serverPathOf, resolveServerPath, getServerFileName. run.
  by destruct (truthyValue _).
Qed.

Lemma resolvePipeName_run (s : Server) :
  resolvePipeName h s =
    match getExtension h csharpDevkitExtensionId with
    | None => (Returns None, standalone s)
    | Some extension =>
        match activate extension with
        | Throws e => (Throws e, withDevkit s)
        | Returns None => (Returns None, withDevkit s)
        | Returns (Some exports) =>
            match getBrokeredServiceServerPipeName exports with
            | None => (Throws missingExport, withDevkit s)
            | Some call => (call, withDevkit s)
            end
        end
    end.
Proof.
  unfold resolvePipeName, waitForCSharpDevkitActivationAndGetExports,
    getBrokeredServicePipeName.
  run. destruct (getExtension h _) as [extension|]; run; [|done].
  destruct (activate extension) as [[exports|]|e]; run; try done.
  by destruct (getBrokeredServiceServerPipeName exports).
Qed.

Lemma negotiate_run (s : Server) :
  negotiate h s =
    match getExtension h csharpDevkitExtensionId with
    | None => (Returns (None, None), standalone s)
    | Some extension =>
        match activate extension with
        | Throws e => (Throws e, withDevkit s)
        | Returns None => (Returns (None, None), withDevkit s)
        | Returns (Some exports) =>
            match getBrokeredServiceServerPipeName exports with
            | None => (Throws missingExport, withDevkit s)
            | Some (Throws e) => (Throws e, withDevkit s)
            | Some (Returns pipe) => (Returns (pipe, starredOf exports), withDevkit s)
            end
        end
    end.
Proof.
  unfold negotiate, waitForCSharpDevkitActivationAndGetExports,
    getBrokeredServicePipeName, getStarredCompletionComponentPath, starredOf.
  run. destruct (getExtension h _) as [extension|]; run; [|done].
  destruct (activate extension) as [[exports|]|e]; run; try done.
  destruct (getBrokeredServiceServerPipeName exports) as [[pipe|e]|]; run; try done.
  by destruct (components exports).
Qed.

Lemma negotiate_pipe (s s1 : Server) pipe starred :
  negotiate h s = (Returns (pipe, starred), s1) ->
  resolvePipeName h s = (Returns pipe, s1).
Proof.
  rewrite negotiate_run, resolvePipeName_run.
  destruct (getExtension h _) as [extension|]; [|congruence].
  destruct (activate extension) as [[exports|]|e]; try congruence.
  destruct (getBrokeredServiceServerPipeName exports) as [[pipe'|e]|]; congruence.
Qed.

(** The negotiation touches neither the clients nor the handle, spawns
    nothing, and only adds to the effects. *)
Lemma negotiate_frame (s : Server) :
  clients (snd (negotiate h s)) = clients s /\
  _languageClient (snd (negotiate h s)) = _languageClient s /\
  spawned (snd (negotiate h s)) = spawned s /\
  effects s `suffix_of` effects (snd (negotiate h s)).
Proof.
  rewrite negotiate_run.
  destruct (getExtension h _) as [extension|];
    [|repeat split; by apply suffix_cons_r].
  destruct (activate extension) as [[exports|]|e];
    try (repeat split; by apply suffix_cons_r).
  destruct (getBrokeredServiceServerPipeName exports) as [[pipe'|e]|];
    repeat split; by apply suffix_cons_r.
Qed.

Lemma spawned_negotiate (s s1 : Server) r :
  negotiate h s = (r, s1) -> spawned s1 = spawned s.
Proof.
  intros H. destruct (negotiate_frame s) as (_ & _ & Hs & _). by rewrite H in Hs.
Qed.

Lemma startServer_missing (s : Server) solutionPath logLevel :
  existsSync h (serverPathOf h) = false ->
  startServer solutionPath logLevel h s = (Throws (notFound (serverPathOf h)), s).
Proof.
  intros Hmissing. unfold startServer.
  unfold mbind at 1. unfold M_bind at 1. rewrite resolveServerPath_run.
  run. by rewrite Hmissing.
Qed.

Lemma startServer_found (s : Server) solutionPath logLevel :
  existsSync h (serverPathOf h) = true ->
  startServer solutionPath logLevel h s =
    match negotiate h s with
    | (Returns (pipe, starred), s1) =>
        let child :=
          spawnFor (serverPathOf h)
            (launchArguments (waitForDebugger (commonOptions (GetLatestOptions h)))
               logLevel pipe solutionPath starred) in
        (Returns child,
         emit (SpawnProcess child)
           (emit (AppendLine ("Starting server at " +:+ serverPathOf h)) s1))
    | (Throws e, s1) => (Throws e, s1)
    end.
Proof.
  intros Hfound. unfold startServer.
  unfold mbind at 1. unfold M_bind at 1. rewrite resolveServerPath_run.
  unfold negotiate, spawnFor, spawn. run. rewrite Hfound.
  destruct (waitForCSharpDevkitActivationAndGetExports h s) as [[exports|e] s1]; [|done].
  destruct (getBrokeredServicePipeName exports h s1) as [[pipe|e] s2]; [|done].
  destruct (getStarredCompletionComponentPath exports h s2) as [[starred|e] s3]; [|done].
  by destruct (endsWith _ _).
Qed.

Lemma startServer_frame (s : Server) solutionPath logLevel :
  clients (snd (startServer solutionPath logLevel h s)) = clients s /\
  _languageClient (snd (startServer solutionPath logLevel h s)) = _languageClient s /\
  effects s `suffix_of` effects (snd (startServer solutionPath logLevel h s)).
Proof.
  destruct (existsSync h (serverPathOf h)) eqn:Hfound.
  - rewrite startServer_found by done.
    destruct (negotiate_frame s) as (Hc & Hl & _ & He).
    destruct (negotiate h s) as [[[pipe starred]|e] s1]; cbn in *; [|done].
    repeat split; [done..|]. by do 2 apply suffix_cons_r.
  - by rewrite startServer_missing.
Qed.

Lemma emit_lines_frame (s : Server) (lines : list string) :
  let s' := foldr (fun line => emit (AppendLine line)) s lines in
  clients s' = clients s /\ _languageClient s' = _languageClient s /\
  effects s `suffix_of` effects s'.
Proof.
  induction lines as [|line lines (Hc & Hl & He)]; cbn; [done|].
  repeat split; [done..|]. by apply suffix_cons_r.
Qed.

Lemma prepared_fields (version : string) (s : Server) :
  _wasActivatedWithCSharpDevkit (prepared h version s) = _wasActivatedWithCSharpDevkit s /\
  spawned (prepared h version s) = spawned s /\
  clients (prepared h version s) = clients s ++ [{| phase := Created; clientTrace := None |}] /\
  _languageClient (prepared h version s) = Some (length (clients s)) /\
  effects s `suffix_of` effects (prepared h version s).
Proof.
  unfold prepared, announced.
  destruct (head (findFiles h)), (razorRegistered s); repeat split;
    by repeat apply suffix_cons_r.
Qed.

(** [start()] step by step: it rejects untouched when the runtime is not
    resolved, rejects after its log lines when the level is not recognized,
    and otherwise creates a client and sets its launch going; the launch
    runs whatever [registerRazor] does, which alone decides how [start()]
    ends. *)
Lemma start_run (s : Server) :
  start h s =
    match getHostExecutableInfo h with
    | Throws e => (Throws e, s)
    | Returns version =>
        let level := logLevel (languageServerOptions (GetLatestOptions h)) in
        if bool_decide (level ∈ recognizedLogLevels) then
          let id := length (clients s) in
          match startServer (head (findFiles h)) (Some level) h (prepared h version s) with
          | (Returns child, s') =>
              (registration s,
               setClient id {| phase := Running child;
                               clientTrace := Some (specifiedVerbosity level) |} s')
          | (Throws e, s') =>
              (registration s,
               setClient id {| phase := StartFailed e; clientTrace := None |} s')
          end
        else
          (Throws (Error ("Invalid log level " +:+ level)),
           emit (AppendLine ("Invalid log level " +:+ level +:+
                   ", server will not start. Please set the 'dotnet.server.trace' configuration to a valid value"))
             (announced h version s))
    end.
Proof.
  unfold start, newLanguageClient, clientStart, registerRazor, attempt, clientLaunch,
    prepared, registration, announced, razorRegistered.
  run. destruct (getHostExecutableInfo h) as [version|e]; [|done].
  case_bool_decide as Hlevel.
  - destruct (head (findFiles h)) as [solution|]; run.
    all: rewrite GetTraceLevel_recognized by done; run.
    all: destruct (existsb isRazorRegistration (effects s)); run.
    all: by destruct (startServer _ _ h _) as [[child|e] s'].
  - destruct (head (findFiles h)) as [solution|]; run.
    all: by rewrite GetTraceLevel_unrecognized by done.
Qed.

(** [start()] either throws before it has created a client, leaving the
    clients and the handle as they were, or creates one more client, which
    the handle then names. *)
Lemma start_shape (s : Server) :
  effects s `suffix_of` effects (snd (start h s)) /\
  ((clients (snd (start h s)) = clients s /\
    _languageClient (snd (start h s)) = _languageClient s /\
    exists e, fst (start h s) = Throws e) \/
   (exists c, clients (snd (start h s)) = clients s ++ [c] /\
    _languageClient (snd (start h s)) = Some (length (clients s)))).
Proof.
  rewrite start_run. destruct (getHostExecutableInfo h) as [version|e];
    [|split; [done | left; eauto]].
  cbn zeta. case_bool_decide as Hlevel.
  - destruct (prepared_fields version s) as (_ & _ & Hc & Hl & He).
    destruct (startServer_frame (prepared h version s) (head (findFiles h))
                (Some (logLevel (languageServerOptions (GetLatestOptions h)))))
      as (Hc' & Hl' & He').
    destruct (startServer _ _ h _) as [[child|e] s']; cbn [fst snd] in *.
    all: split; [by etrans | right].
    all: eexists; unfold setClient; cbn [clients _languageClient set_clients].
    all: by rewrite Hc', Hc, insert_last, Hl', Hl.
  - split; [|left; unfold announced; destruct (head (findFiles h)); by eauto].
    unfold announced. destruct (head (findFiles h)); by repeat apply suffix_cons_r.
Qed.

Lemma start_ownsLive (s : Server) : noLive s -> ownsLive (snd (start h s)).
Proof.
  intros Hnone. destruct (start_shape s) as [_ [(Hc & Hl & _) | (c & Hc & Hl)]].
  - apply noLive_ownsLive. intros id c. rewrite Hc. apply Hnone.
  - intros id c'. rewrite Hc, Hl. intros Hid Hlive.
    destruct (decide (id < length (clients s))%nat) as [Hlt|Hge].
    + rewrite lookup_app_l in Hid by done. pose proof (Hnone id c' Hid). congruence.
    + apply lookup_lt_Some in Hid. rewrite length_app in Hid. cbn in Hid.
      f_equal. lia.
Qed.

Lemma stop_run (s : Server) :
  stop h s =
    match _languageClient s with
    | None => (Returns tt, s)
    | Some id =>
        match clientStopOutcome h id 10000 with
        | Returns _ =>
            (Returns tt,
             set_languageClient None
               (emit (ClientDisposed id 10000)
                  (setPhase id Stopped (emit (ClientStopRequested id 10000) s))))
        | Throws e => (Throws e, emit (ClientStopRequested id 10000) s)
        end
    end.
Proof.
  unfold stop, clientStop, clientDispose, _stopTimeout. run.
  destruct (_languageClient s) as [id|] eqn:Hclient; cbn.
  - destruct (clientStopOutcome h id 10000) as [[]|e]; cbn; [|done].
    by rewrite Hclient.
  - rewrite Hclient. cbn. f_equal.
    rewrite <- (set_languageClient_same s) at 2. by rewrite Hclient.
Qed.

(** After a [stop()] that resolved no client is live; one that rejected
    left the clients and the handle alone. *)
Lemma stop_ownsLive (s : Server) :
  ownsLive s ->
  match stop h s with
  | (Returns _, s1) => noLive s1 /\ _languageClient s1 = None
  | (Throws _, s1) =>
      ownsLive s1 /\ clients s1 = clients s /\ _languageClient s1 = _languageClient s
  end.
Proof.
  intros Howns. rewrite stop_run.
  destruct (_languageClient s) as [held|] eqn:Hheld.
  - destruct (clientStopOutcome h held 10000) as [[]|e]; [|done].
    split; [|done]. intros id c. cbn.
    destruct (decide (held = id)) as [->|Hne].
    + rewrite list_lookup_alter_eq. destruct (clients s !! id); [|done].
      cbn. by intros [= <-].
    + rewrite list_lookup_alter_ne by done. intros Hid.
      destruct (isLive c) eqn:Hlive; [|done].
      pose proof (Howns id c Hid Hlive). congruence.
  - split; [|done]. by apply ownsLive_noLive.
Qed.

Lemma spawned_stop (s : Server) : spawned (snd (stop h s)) = spawned s.
Proof.
  rewrite stop_run. destruct (_languageClient s) as [id|]; [|done].
  by destruct (clientStopOutcome h id 10000) as [[]|e].
Qed.

Lemma restart_run (s : Server) :
  restart h s =
    match stop h s with
    | (Returns _, s1) => start h s1
    | (Throws e, s1) => (Throws e, s1)
    end.
Proof. reflexivity. Qed.

Lemma restart_ownsLive (s : Server) : ownsLive s -> ownsLive (snd (restart h s)).
Proof.
  intros Howns. rewrite restart_run. pose proof (stop_ownsLive s Howns) as Hstop.
  destruct (stop h s) as [[[]|e] s1].
  - apply start_ownsLive, Hstop.
  - apply Hstop.
Qed.

Lemma onDidChange_frame (s : Server) :
  clients (snd (onDidChange h s)) = clients s /\
  _languageClient (snd (onDidChange h s)) = _languageClient s.
Proof.
  unfold onDidChange. run.
  destruct (_wasActivatedWithCSharpDevkit s) as [activated|]; [|done].
  by destruct (present _ && negb activated).
Qed.

End OnHost.

(** In every state the instance can reach, the only client that may be live
    is the one it holds. *)
Lemma reachable_ownsLive (s : Server) : reachable s -> ownsLive s.
Proof.
  induction 1 as [h | h s _ IH | h s _ IH | h s _ IH].
  - unfold activateRoslynLanguageServer. apply start_ownsLive. by intros [|id] c.
  - by apply restart_ownsLive.
  - pose proof (stop_ownsLive h s IH) as Hstop.
    destruct (stop h s) as [[[]|e] s1]; cbn; [|apply Hstop].
    apply noLive_ownsLive, Hstop.
  - destruct (onDidChange_frame h s) as [Hc Hl].
    intros id c. rewrite Hc, Hl. apply IH.
Qed.

(** * Specified behaviour *)

(** C1.  On each of the recognized log levels [GetTraceLevel] returns the
    mapped verbosity ([Trace] gives Verbose, [Debug] gives Messages, the
    other five give Off) and leaves the instance alone.  On any other string
    it throws [Invalid log level ...]; when that string is the configured
    level, [start()] rejects, and nothing has been spawned and no client
    created by then. *)
Theorem GetTraceLevel_maps_or_throws (h : Host) (s : Server) (level : string) :
  (level ∈ recognizedLogLevels ->
     GetTraceLevel level h s = (Returns (specifiedVerbosity level), s)) /\
  (level ∉ recognizedLogLevels ->
     fst (GetTraceLevel level h s) = Throws (Error ("Invalid log level " +:+ level)) /\
     (logLevel (languageServerOptions (GetLatestOptions h)) = level ->
      exists e s', start h s = (Throws e, s') /\
        spawned s' = spawned s /\ clients s' = clients s /\
        _languageClient s' = _languageClient s)).
Proof.
  split; [apply GetTraceLevel_recognized|].
  intros Hbad. split; [by rewrite GetTraceLevel_unrecognized|].
  intros Hlevel. unfold start. run.
  destruct (getHostExecutableInfo h) as [version|e]; [|by do 2 eexists].
  rewrite Hlevel.
  destruct (head (findFiles h)) as [solution|]; run;
    rewrite GetTraceLevel_unrecognized by done; by do 2 eexists.
Qed.

(** C2.  Whenever [startServer] gets as far as building its arguments (the
    server path exists and the negotiation with Devkit returned): if a pipe
    name was obtained (a truthy one) the built list has no [--solutionPath]
    flag; if none was obtained and a solution was found the list has exactly
    one [--solutionPath] flag, whose value is the solution's [fsPath], the
    token right after it. *)
Theorem solutionPath_only_without_pipe (h : Host) (s s1 : Server)
    solutionPath logLevel pipe starred :
  existsSync h (serverPathOf h) = true ->
  negotiate h s = (Returns (pipe, starred), s1) ->
  exists args s',
    resolvePipeName h s = (Returns pipe, s1) /\
    startServer solutionPath logLevel h s = (Returns (spawnFor (serverPathOf h) args), s') /\
    args = launchArguments (waitForDebugger (commonOptions (GetLatestOptions h)))
             logLevel pipe solutionPath starred /\
    (truthy pipe = true -> valuesOf "--solutionPath" (flagsOf args) = []) /\
    (truthy pipe = false -> forall solution, solutionPath = Some solution ->
       valuesOf "--solutionPath" (flagsOf args) = [Some (fsPath solution)] /\
       exists before after,
         args = before ++ "--solutionPath" :: fsPath solution :: after).
Proof.
  intros Hfound Hneg. do 2 eexists. split; [by eapply negotiate_pipe|].
  split; [by rewrite startServer_found, Hneg|].
  split; [done|].
  rewrite valuesOf_solutionPath, truthy_truthyValue.
  split.
  - intros Hp%bool_decide_eq_true. by destruct Hp as [name ->].
  - intros Hp%bool_decide_eq_false solution ->.
    destruct (truthyValue pipe) eqn:Hpipe; [destruct Hp; eauto|].
    split; [done|]. by apply solutionPath_tokens.
Qed.

(** C3.  When the resolved server path exists and the negotiation returned,
    [startServer] spawns one process: for a path that is some stem followed
    by [.dll] the command is [dotnet] and its arguments are the path followed
    by the built list; for any other path the command is the path itself and
    the arguments are the built list. *)
Theorem spawn_through_dotnet_for_dll (h : Host) (s s1 : Server)
    solutionPath logLevel pipe starred :
  existsSync h (serverPathOf h) = true ->
  negotiate h s = (Returns (pipe, starred), s1) ->
  exists child s',
    startServer solutionPath logLevel h s = (Returns child, s') /\
    spawned s' = child :: spawned s /\
    let args := launchArguments (waitForDebugger (commonOptions (GetLatestOptions h)))
                  logLevel pipe solutionPath starred in
    ((exists stem, serverPathOf h = stem +:+ ".dll") ->
       child = {| spawnCommand := "dotnet"; spawnArguments := serverPathOf h :: args |}) /\
    (~ (exists stem, serverPathOf h = stem +:+ ".dll") ->
       child = {| spawnCommand := serverPathOf h; spawnArguments := args |}).
Proof.
  intros Hfound Hneg. do 2 eexists.
  split; [by rewrite startServer_found, Hneg|].
  split; [cbn; f_equal; by eapply spawned_negotiate|].
  cbn. unfold spawnFor. split.
  - intros Hdll%endsWith_spec. by rewrite Hdll.
  - intros Hother. destruct (endsWith _ _) eqn:Hends; [|done].
    by apply endsWith_spec in Hends.
Qed.


(** C5.  In every state the instance reaches at most one client is live.
    [restart()] runs [stop()] first.  If [stop()] rejects, [restart()]
    rejects with the same error in the state [stop()] left, where nothing
    was spawned and no client was added: [start()] has not run; all that
    happened is the request to stop, with 10000 ms.  If
    [stop()] resolves, the client held before was asked to stop and was
    disposed, both with 10000 ms, the handle is cleared, no client is live
    and nothing was spawned; [start()] runs from that state, every effect
    of it coming after those of [stop()], and at most one client is live
    when it is done. *)
Theorem restart_stops_before_it_starts (h : Host) (s : Server) :
  reachable s ->
  (liveCount s <= 1)%nat /\
  match stop h s with
  | (Throws e, s1) =>
      restart h s = (Throws e, s1) /\
      (exists id, _languageClient s = Some id /\
         effects s1 = ClientStopRequested id 10000 :: effects s) /\
      spawned s1 = spawned s /\
      clients s1 = clients s /\
      (liveCount s1 <= 1)%nat
  | (Returns _, s1) =>
      restart h s = start h s1 /\
      (forall id, _languageClient s = Some id ->
         effects s1 =
           ClientDisposed id 10000 :: ClientStopRequested id 10000 :: effects s) /\
      _languageClient s1 = None /\
      liveCount s1 = 0%nat /\
      spawned s1 = spawned s /\
      effects s1 `suffix_of` effects (snd (restart h s)) /\
      (liveCount (snd (restart h s)) <= 1)%nat
  end.
Proof.
  intros Hreach. pose proof (reachable_ownsLive s Hreach) as Howns.
  split; [by apply ownsLive_liveCount|].
  pose proof (restart_ownsLive h s Howns) as Hrestart.
  pose proof (stop_ownsLive h s Howns) as Hstop.
  pose proof (spawned_stop h s) as Hspawned.
  pose proof (stop_run h s) as Hrun.
  rewrite restart_run in *.
  destruct (stop h s) as [[[]|e] s1]; cbn in Hspawned.
  - destruct Hstop as [Hnone Hheld].
    split; [done|]. split.
    { intros id Hid. rewrite Hid in Hrun.
      destruct (clientStopOutcome h id 10000) as [[]|e]; [|done].
      by injection Hrun as ->. }
    split; [done|]. split; [by apply noLive_liveCount|]. split; [done|].
    split; [apply start_shape | by apply ownsLive_liveCount].
  - destruct Hstop as (Howns1 & Hc & _).
    split; [done|]. split.
    { destruct (_languageClient s) as [id|]; [|done]. exists id. split; [done|].
      destruct (clientStopOutcome h id 10000) as [[]|e']; [done|].
      by injection Hrun as _ ->. }
    repeat split; [done..|]. by apply ownsLive_liveCount.
Qed.

(** C7.  When Devkit is installed and its activation resolves to an exports
    object without [getBrokeredServiceServerPipeName], resolving the pipe
    name throws [C# Devkit is installed but missing expected export ...];
    [startServer] fails with that error and spawns nothing.  When Devkit is
    not installed, resolving the pipe name returns [undefined] and throws
    nothing. *)
Theorem missing_export_is_fatal (h : Host) (s : Server) :
  (forall extension exports,
     getExtension h csharpDevkitExtensionId = Some extension ->
     activate extension = Returns (Some exports) ->
     getBrokeredServiceServerPipeName exports = None ->
     resolvePipeName h s = (Throws missingExport, withDevkit s) /\
     forall solutionPath logLevel,
       existsSync h (serverPathOf h) = true ->
       startServer solutionPath logLevel h s = (Throws missingExport, withDevkit s) /\
       spawned (withDevkit s) = spawned s) /\
  (getExtension h csharpDevkitExtensionId = None ->
     resolvePipeName h s = (Returns None, standalone s)).
Proof.
  split.
  - intros extension exports Hext Hact Hexport. split.
    + by rewrite resolvePipeName_run, Hext, Hact, Hexport.
    + intros solutionPath logLevel Hfound. split; [|done].
      by rewrite startServer_found, negotiate_run, Hext, Hact, Hexport.
  - intros Hext. by rewrite resolvePipeName_run, Hext.
Qed.

(** C8, as amended.  With no handle, [stop()] returns normally and changes
    nothing, the handle staying unset.  With a handle, [stop()] first asks
    the client to stop with 10000 ms; if that resolves, it disposes the
    client with 10000 ms, clears the handle and returns; if it rejects,
    [stop()] rejects with the same error, having neither disposed the client
    nor cleared the handle. *)
Theorem stop_is_safe_and_clears_after_shutdown (h : Host) (s : Server) :
  (_languageClient s = None -> stop h s = (Returns tt, s)) /\
  (forall id, _languageClient s = Some id ->
     match clientStopOutcome h id 10000 with
     | Returns _ =>
         exists s', stop h s = (Returns tt, s') /\
           _languageClient s' = None /\
           effects s' = ClientDisposed id 10000 :: ClientStopRequested id 10000 :: effects s
     | Throws e =>
         stop h s = (Throws e, emit (ClientStopRequested id 10000) s)
     end).
Proof.
  rewrite stop_run. split.
  - by intros ->.
  - intros id ->. destruct (clientStopOutcome h id 10000) as [[]|e]; [|done].
    by eexists.
Qed.

(** C9.  On an extension-change event: if the instance was activated
    without Devkit and Devkit is now installed, the listener shows exactly
    one prompt, which offers [dotnet.restartServer] under the title
    [Restart Language Server], after a line on the channel, and changes
    nothing else; if the instance was not activated yet, or Devkit is not
    installed, or the instance was activated with Devkit, the listener
    changes nothing at all. *)
Theorem restart_offered_once_per_new_install (h : Host) (s : Server) :
  (forall extension,
     getExtension h csharpDevkitExtensionId = Some extension ->
     _wasActivatedWithCSharpDevkit s = Some false ->
     exists s',
       onDidChange h s = (Returns tt, s') /\
       prompts s' = restartPrompt :: prompts s /\
       effects s' =
         restartPrompt
           :: AppendLine "Detected new installation of ms-dotnettools.csdevkit"
           :: effects s /\
       _languageClient s' = _languageClient s /\
       _wasActivatedWithCSharpDevkit s' = _wasActivatedWithCSharpDevkit s /\
       clients s' = clients s) /\
  (_wasActivatedWithCSharpDevkit s = None \/
   getExtension h csharpDevkitExtensionId = None \/
   _wasActivatedWithCSharpDevkit s = Some true ->
     onDidChange h s = (Returns tt, s)).
Proof.
  unfold onDidChange. run. split.
  - intros extension Hext Hflag. rewrite Hext, Hflag. eexists. split; [reflexivity|].
    repeat split; try reflexivity. exact Hflag.
  - intros [-> | [-> | ->]]; [done | | ].
    + by destruct (_wasActivatedWithCSharpDevkit s) as [[]|].
    + cbn. by rewrite andb_false_r.
Qed.

(** C10.  When Devkit is installed and its activation resolves to
    [undefined], resolving the pipe name returns [undefined] and throws
    nothing; provided the server path exists, [startServer] then goes on as
    it does without a pipe name: it logs [Starting server at ...], spawns
    the server, that one process and no other, with the arguments built for
    no pipe name and no component path (no [--brokeredServicePipeName]
    flag, and the solution path when one was found), and returns it. *)
Theorem falsy_exports_give_no_pipe_name (h : Host) (s : Server) (extension : Extension) :
  getExtension h csharpDevkitExtensionId = Some extension ->
  activate extension = Returns None ->
  resolvePipeName h s = (Returns None, withDevkit s) /\
  forall solutionPath logLevel,
    existsSync h (serverPathOf h) = true ->
    let args := launchArguments (waitForDebugger (commonOptions (GetLatestOptions h)))
                  logLevel None solutionPath None in
    let child := spawnFor (serverPathOf h) args in
    exists s',
      startServer solutionPath logLevel h s = (Returns child, s') /\
      spawned s' = child :: spawned s /\
      effects s' =
        SpawnProcess child :: AppendLine ("Starting server at " +:+ serverPathOf h)
          :: effects (withDevkit s) /\
      valuesOf "--brokeredServicePipeName" (flagsOf args) = [] /\
      valuesOf "--solutionPath" (flagsOf args) =
        match solutionPath with
        | Some solution => [Some (fsPath solution)]
        | None => []
        end.
Proof.
  intros Hext Hact. split.
  - by rewrite resolvePipeName_run, Hext, Hact.
  - intros solutionPath logLevel Hfound args child. eexists. split.
    + by rewrite startServer_found, negotiate_run, Hext, Hact.
    + split; [done|]. split; [done|].
      split; [|unfold args; by rewrite valuesOf_solutionPath].
      unfold args, launchArguments.
      by destruct (waitForDebugger _), (truthyValue logLevel), solutionPath.
Qed.

(** * The sample hosts *)

(** Settles a decidable fact about closed terms by evaluation. *)
Ltac evaluated := apply (bool_decide_unpack _); vm_compute; exact I.

Lemma GetTraceLevel_maps_or_throws_witness :
  (("Trace" ∈ recognizedLogLevels) /\
   GetTraceLevel "Trace" loudHost newServer = (Returns Verbose, newServer)) /\
  (("Loud" ∉ recognizedLogLevels) /\
   logLevel (languageServerOptions (GetLatestOptions loudHost)) = "Loud" /\
   exists e s', start loudHost newServer = (Throws e, s') /\ spawned s' = []).
Proof.
  assert ("Trace" ∈ recognizedLogLevels) as Hin by evaluated.
  assert ("Loud" ∉ recognizedLogLevels) as Hout by evaluated.
  split.
  - split; [exact Hin|].
    exact (proj1 (GetTraceLevel_maps_or_throws loudHost newServer "Trace") Hin).
  - split; [exact Hout|]. split; [reflexivity|].
    destruct (proj2 (GetTraceLevel_maps_or_throws loudHost newServer "Loud") Hout)
      as [_ Hstart].
    destruct (Hstart eq_refl) as (e & s' & Hrun & Hspawned & _).
    exists e, s'. split; [exact Hrun | exact Hspawned].
Defined.

Lemma solutionPath_only_without_pipe_witness :
  (existsSync dllDevkitHost (serverPathOf dllDevkitHost) = true /\
   negotiate dllDevkitHost newServer =
     (Returns (Some "pipe-7f3a", Some "/devkit/starred"), withDevkit newServer) /\
   exists args s',
     startServer (head (findFiles dllDevkitHost)) (Some "Trace") dllDevkitHost newServer =
       (Returns (spawnFor "/opt/roslyn/server.dll" args), s') /\
     valuesOf "--solutionPath" (flagsOf args) = []) /\
  (existsSync linuxHost (serverPathOf linuxHost) = true /\
   negotiate linuxHost newServer = (Returns (None, None), standalone newServer) /\
   exists args s',
     startServer (head (findFiles linuxHost)) (Some "Debug") linuxHost newServer =
       (Returns (spawnFor "/opt/roslyn/server" args), s') /\
     valuesOf "--solutionPath" (flagsOf args) = [Some "/work/app.sln"]).
Proof.
  split.
  - assert (existsSync dllDevkitHost (serverPathOf dllDevkitHost) = true) as Hfound
      by (vm_compute; reflexivity).
    assert (negotiate dllDevkitHost newServer =
              (Returns (Some "pipe-7f3a", Some "/devkit/starred"), withDevkit newServer))
      as Hneg by (vm_compute; reflexivity).
    split; [exact Hfound|]. split; [exact Hneg|].
    destruct (solutionPath_only_without_pipe dllDevkitHost newServer _
                (head (findFiles dllDevkitHost)) (Some "Trace") _ _ Hfound Hneg)
      as (args & s' & _ & Hrun & _ & Hnone & _).
    exists args, s'. split; [exact Hrun|]. apply Hnone. reflexivity.
  - assert (existsSync linuxHost (serverPathOf linuxHost) = true) as Hfound
      by (vm_compute; reflexivity).
    assert (negotiate linuxHost newServer = (Returns (None, None), standalone newServer))
      as Hneg by (vm_compute; reflexivity).
    split; [exact Hfound|]. split; [exact Hneg|].
    destruct (solutionPath_only_without_pipe linuxHost newServer _
                (head (findFiles linuxHost)) (Some "Debug") _ _ Hfound Hneg)
      as (args & s' & _ & Hrun & _ & _ & Hone).
    exists args, s'. split; [exact Hrun|].
    exact (proj1 (Hone eq_refl _ eq_refl)).
Defined.

Lemma spawn_through_dotnet_for_dll_witness :
  existsSync dllDevkitHost (serverPathOf dllDevkitHost) = true /\
  negotiate dllDevkitHost newServer =
    (Returns (Some "pipe-7f3a", Some "/devkit/starred"), withDevkit newServer) /\
  (exists stem, serverPathOf dllDevkitHost = stem +:+ ".dll") /\
  exists s',
    startServer (head (findFiles dllDevkitHost)) (Some "Trace") dllDevkitHost newServer =
      (Returns {| spawnCommand := "dotnet";
                  spawnArguments :=
                    ["/opt/roslyn/server.dll"; "--logLevel"; "Trace";
                     "--brokeredServicePipeName"; "pipe-7f3a";
                     "--starredCompletionComponentPath"; "/devkit/starred"] |}, s').
Proof.
  assert (existsSync dllDevkitHost (serverPathOf dllDevkitHost) = true) as Hfound
    by (vm_compute; reflexivity).
  assert (negotiate dllDevkitHost newServer =
            (Returns (Some "pipe-7f3a", Some "/devkit/starred"), withDevkit newServer))
    as Hneg by (vm_compute; reflexivity).
  assert (exists stem, serverPathOf dllDevkitHost = stem +:+ ".dll") as Hdll
    by (exists "/opt/roslyn/server"; vm_compute; reflexivity).
  split; [exact Hfound|]. split; [exact Hneg|]. split; [exact Hdll|].
  destruct (spawn_through_dotnet_for_dll dllDevkitHost newServer _
              (head (findFiles dllDevkitHost)) (Some "Trace") _ _ Hfound Hneg)
    as (child & s' & Hrun & _ & Hdotnet & _).
  exists s'. rewrite Hrun, (Hdotnet Hdll). reflexivity.
Defined.



Lemma restart_stops_before_it_starts_witness :
  reachable (snd (activateRoslynLanguageServer linuxHost)) /\
  (liveCount (snd (activateRoslynLanguageServer linuxHost)) <= 1)%nat.
Proof.
  assert (reachable (snd (activateRoslynLanguageServer linuxHost))) as Hreach
    by apply reach_activate.
  split; [exact Hreach|].
  destruct (restart_stops_before_it_starts linuxHost
              (snd (activateRoslynLanguageServer linuxHost)) Hreach) as [Hlive _].
  exact Hlive.
Defined.

Lemma missing_export_is_fatal_witness :
  (getExtension brokenDevkitHost csharpDevkitExtensionId =
     Some {| activate := Returns (Some emptyExports) |} /\
   getBrokeredServiceServerPipeName emptyExports = None /\
   resolvePipeName brokenDevkitHost newServer = (Throws missingExport, withDevkit newServer)) /\
  (getExtension linuxHost csharpDevkitExtensionId = None /\
   resolvePipeName linuxHost newServer = (Returns None, standalone newServer)).
Proof.
  split.
  - split; [reflexivity|]. split; [reflexivity|].
    exact (proj1 (proj1 (missing_export_is_fatal brokenDevkitHost newServer)
                    _ emptyExports eq_refl eq_refl eq_refl)).
  - split; [reflexivity|].
    exact (proj2 (missing_export_is_fatal linuxHost newServer) eq_refl).
Defined.

Lemma stop_is_safe_and_clears_after_shutdown_witness :
  (_languageClient newServer = None /\ stop linuxHost newServer = (Returns tt, newServer)) /\
  (_languageClient (snd (start linuxHost newServer)) = Some 0%nat /\
   exists s', stop linuxHost (snd (start linuxHost newServer)) = (Returns tt, s') /\
     _languageClient s' = None).
Proof.
  split.
  - split; [reflexivity|].
    exact (proj1 (stop_is_safe_and_clears_after_shutdown linuxHost newServer) eq_refl).
  - assert (_languageClient (snd (start linuxHost newServer)) = Some 0%nat) as Hheld
      by (vm_compute; reflexivity).
    split; [exact Hheld|].
    pose proof (proj2 (stop_is_safe_and_clears_after_shutdown linuxHost
                         (snd (start linuxHost newServer))) 0%nat Hheld) as Hstop.
    cbn in Hstop. destruct Hstop as (s' & Hrun & Hcleared & _).
    exists s'. split; [exact Hrun | exact Hcleared].
Defined.

(** C8 read as clearing the handle whenever one exists fails: on
    [timeoutHost] the started instance holds client 0, whose graceful
    shutdown times out; [stop()] rejects, the client is not disposed and the
    handle still names it. *)
Lemma stop_keeps_handle_on_timeout :
  _languageClient (snd (start timeoutHost newServer)) = Some 0%nat /\
  fst (stop timeoutHost (snd (start timeoutHost newServer))) =
    Throws (Error "Stopping the server timed out") /\
  _languageClient (snd (stop timeoutHost (snd (start timeoutHost newServer)))) = Some 0%nat /\
  ~ stopAlwaysClearsHandle timeoutHost (snd (start timeoutHost newServer)).
Proof.
  split; [vm_compute; reflexivity|]. split; [vm_compute; reflexivity|].
  split; [vm_compute; reflexivity|].
  intros Hclaim. destruct (Hclaim 0%nat) as (s' & Hrun & _); [vm_compute; reflexivity|].
  vm_compute in Hrun. discriminate Hrun.
Qed.

Lemma restart_offered_once_per_new_install_witness :
  (getExtension dllDevkitHost csharpDevkitExtensionId =
     Some {| activate := Returns (Some fullExports) |} /\
   _wasActivatedWithCSharpDevkit (snd (start linuxHost newServer)) = Some false /\
   exists s', onDidChange dllDevkitHost (snd (start linuxHost newServer)) = (Returns tt, s') /\
     prompts s' = [restartPrompt]) /\
  (_wasActivatedWithCSharpDevkit newServer = None /\
   onDidChange dllDevkitHost newServer = (Returns tt, newServer)).
Proof.
  split.
  - assert (_wasActivatedWithCSharpDevkit (snd (start linuxHost newServer)) = Some false)
      as Hflag by (vm_compute; reflexivity).
    split; [reflexivity|]. split; [exact Hflag|].
    destruct (proj1 (restart_offered_once_per_new_install dllDevkitHost
                       (snd (start linuxHost newServer))) _ eq_refl Hflag)
      as (s' & Hrun & Hprompts & _).
    exists s'. split; [exact Hrun|]. rewrite Hprompts. reflexivity.
  - split; [reflexivity|].
    exact (proj2 (restart_offered_once_per_new_install dllDevkitHost newServer)
             (or_introl eq_refl)).
Defined.

Lemma falsy_exports_give_no_pipe_name_witness :
  getExtension silentDevkitHost csharpDevkitExtensionId = Some {| activate := Returns None |} /\
  resolvePipeName silentDevkitHost newServer = (Returns None, withDevkit newServer) /\
  exists s',
    startServer (head (findFiles silentDevkitHost)) (Some "Debug") silentDevkitHost newServer =
      (Returns {| spawnCommand := "/opt/roslyn/server";
                  spawnArguments := ["--logLevel"; "Debug"; "--solutionPath"; "/work/app.sln"] |},
       s') /\
    spawned s' =
      [{| spawnCommand := "/opt/roslyn/server";
          spawnArguments := ["--logLevel"; "Debug"; "--solutionPath"; "/work/app.sln"] |}].
Proof.
  destruct (falsy_exports_give_no_pipe_name silentDevkitHost newServer
              {| activate := Returns None |} eq_refl eq_refl) as [Hpipe Hlaunch].
  split; [reflexivity|]. split; [exact Hpipe|].
  destruct (Hlaunch (head (findFiles silentDevkitHost)) (Some "Debug"))
    as (s' & Hrun & Hspawned & _); [vm_compute; reflexivity|].
  exists s'. split; [rewrite Hrun; reflexivity | rewrite Hspawned; reflexivity].
Defined.

(** * Further properties of the code *)


Lemma substring_append_skip (stem s : string) (k m : nat) :
  substring (String.length stem + k) m (stem +:+ s) = substring k m s.
Proof. induction stem as [|c stem IH]; simpl; [done | exact IH]. Qed.

Lemma endsWith_append (stem name suffix : string) :
  (String.length suffix <= String.length name)%nat ->
  endsWith (stem +:+ name) suffix = endsWith name suffix.
Proof.
  intros Hle. unfold endsWith. rewrite length_append.
  destruct (Nat.leb_spec (String.length suffix) (String.length name)) as [_|]; [|lia].
  destruct (Nat.leb_spec (String.length suffix)
              (String.length stem + String.length name)) as [_|]; [|lia].
  replace (String.length stem + String.length name - String.length suffix)%nat
    with (String.length stem + (String.length name - String.length suffix))%nat by lia.
  by rewrite substring_append_skip.
Qed.

Lemma serverFileNameOf_platform (h : Host) :
  serverFileNameOf h =
    "Microsoft.CodeAnalysis.LanguageServer" +:+
    (if isMacOS h then ".dll" else if isWindows h then ".exe" else "").
Proof.
  unfold serverFileNameOf, getServerFileName. run.
  by destruct (isMacOS h), (isWindows h).
Qed.

Lemma serverPathOf_cases (h : Host) :
  serverPathOf h =
    match truthyValue (serverPath (commonOptions (GetLatestOptions h))) with
    | Some path => path
    | None => pathJoin h [dirname h; ".."; ".roslyn"; serverFileNameOf h]
    end.
Proof.
  unfold serverPathOf, serverFileNameOf, resolveServerPath, getServerFileName. run.
  by destruct (truthyValue _).
Qed.

(** X1.  [startServer] takes a non-empty [serverPath] option as it is, on
    every platform.  With the option unset or empty it takes the bundled
    server, [path.join(__dirname, '..', '.roslyn', name)], where [name] is
    [Microsoft.CodeAnalysis.LanguageServer] with [.dll] on macOS, else
    [.exe] on Windows, else no extension. *)
Theorem serverPath_option_or_bundled (h : Host) (s : Server) :
  resolveServerPath h s = (Returns (serverPathOf h), s) /\
  (forall path, serverPath (commonOptions (GetLatestOptions h)) = Some path ->
     path <> "" -> serverPathOf h = path) /\
  (serverPath (commonOptions (GetLatestOptions h)) = None \/
   serverPath (commonOptions (GetLatestOptions h)) = Some "" ->
     serverPathOf h = pathJoin h [dirname h; ".."; ".roslyn"; serverFileNameOf h]) /\
  serverFileNameOf h =
    "Microsoft.CodeAnalysis.LanguageServer" +:+
    (if isMacOS h then ".dll" else if isWindows h then ".exe" else "").
Proof.
  split; [apply resolveServerPath_run|].
  rewrite serverPathOf_cases. split; [|split; [|apply serverFileNameOf_platform]].
  - intros path -> Hne. cbn. by apply String.eqb_neq in Hne as ->.
  - by intros [-> | ->].
Qed.

(** X2.  With no server path in the options, and [path.join] keeping the
    file name at the end of what it returns, [startServer] spawns the
    bundled server, that one process, through [dotnet] on macOS and directly
    on the other platforms, right after the line [Starting server at ...]. *)
Theorem bundled_server_through_dotnet_on_macOS (h : Host) (s s1 : Server)
    solutionPath logLevel pipe starred :
  truthyValue (serverPath (commonOptions (GetLatestOptions h))) = None ->
  (exists stem,
     pathJoin h [dirname h; ".."; ".roslyn"; serverFileNameOf h] =
       stem +:+ serverFileNameOf h) ->
  existsSync h (serverPathOf h) = true ->
  negotiate h s = (Returns (pipe, starred), s1) ->
  let args := launchArguments (waitForDebugger (commonOptions (GetLatestOptions h)))
                logLevel pipe solutionPath starred in
  let child :=
    if isMacOS h
    then {| spawnCommand := "dotnet"; spawnArguments := serverPathOf h :: args |}
    else {| spawnCommand := serverPathOf h; spawnArguments := args |} in
  startServer solutionPath logLevel h s =
    (Returns child,
     emit (SpawnProcess child)
       (emit (AppendLine ("Starting server at " +:+ serverPathOf h)) s1)) /\
  spawned (snd (startServer solutionPath logLevel h s)) = child :: spawned s.
Proof.
  intros Hunset [stem Hjoin] Hfound Hneg args child.
  assert (spawnFor (serverPathOf h) args = child) as Hchild.
  { unfold spawnFor, child.
    assert (endsWith (serverPathOf h) ".dll" = isMacOS h) as ->; [|done].
    rewrite serverPathOf_cases, Hunset, Hjoin, serverFileNameOf_platform.
    destruct (isMacOS h), (isWindows h); by rewrite endsWith_append by (vm_compute; lia). }
  rewrite startServer_found, Hneg by done. cbn zeta. fold args. rewrite Hchild.
  split; [done|]. cbn. f_equal. by eapply spawned_negotiate.
Qed.

(** X3.  [startServer] spawns exactly when it returns: a call that throws
    has spawned nothing, a call that returns has spawned the process it
    returns, as its last effect, right after the line [Starting server at
    ...], and only for a server path that exists.  Either way it leaves the
    clients and the handle alone. *)
Theorem startServer_spawns_exactly_when_it_returns (h : Host) (s : Server)
    solutionPath logLevel :
  clients (snd (startServer solutionPath logLevel h s)) = clients s /\
  _languageClient (snd (startServer solutionPath logLevel h s)) = _languageClient s /\
  match startServer solutionPath logLevel h s with
  | (Returns child, s') =>
      existsSync h (serverPathOf h) = true /\
      spawned s' = child :: spawned s /\
      exists s1,
        effects s' =
          SpawnProcess child :: AppendLine ("Starting server at " +:+ serverPathOf h)
            :: effects s1 /\
        effects s `suffix_of` effects s1
  | (Throws e, s') => spawned s' = spawned s
  end.
Proof.
  destruct (startServer_frame h s solutionPath logLevel) as (Hc & Hl & _).
  split; [done|]. split; [done|]. clear Hc Hl.
  destruct (existsSync h (serverPathOf h)) eqn:Hfound.
  - rewrite startServer_found by done.
    destruct (negotiate_frame h s) as (_ & _ & Hs & He).
    destruct (negotiate h s) as [[[pipe starred]|e] s1]; cbn in *; [|done].
    split; [done|]. split; [cbn; f_equal; exact Hs|]. by exists s1.
  - by rewrite startServer_missing.
Qed.

(** X4.  When Devkit is installed and its activation rejects, or its
    [getBrokeredServiceServerPipeName()] rejects, [startServer] rejects with
    that same error and spawns nothing.  The instance has recorded by then
    that it was activated with Devkit, so later extension-change events do
    nothing. *)
Theorem devkit_failure_fails_the_launch (h : Host) (s : Server)
    (extension : Extension) (e : JSError) solutionPath logLevel :
  existsSync h (serverPathOf h) = true ->
  getExtension h csharpDevkitExtensionId = Some extension ->
  (activate extension = Throws e \/
   exists exports, activate extension = Returns (Some exports) /\
     getBrokeredServiceServerPipeName exports = Some (Throws e)) ->
  startServer solutionPath logLevel h s = (Throws e, withDevkit s) /\
  spawned (withDevkit s) = spawned s /\
  _wasActivatedWithCSharpDevkit (withDevkit s) = Some true /\
  forall h', onDidChange h' (withDevkit s) = (Returns tt, withDevkit s).
Proof.
  intros Hfound Hext Hfail. split.
  - rewrite startServer_found, negotiate_run, Hext by done.
    destruct Hfail as [-> | (exports & -> & ->)]; done.
  - repeat split. intros h'. unfold onDidChange. run. by rewrite andb_false_r.
Qed.



Lemma startServer_spawned (h : Host) (s : Server) solutionPath logLevel :
  match startServer solutionPath logLevel h s with
  | (Returns child, s') => spawned s' = child :: spawned s
  | (Throws e, s') => spawned s' = spawned s
  end.
Proof.
  destruct (existsSync h (serverPathOf h)) eqn:Hfound.
  - rewrite startServer_found by done.
    destruct (negotiate_frame h s) as (_ & _ & Hs & _).
    destruct (negotiate h s) as [[[pipe starred]|e] s1]; cbn in *; [|done].
    by f_equal.
  - by rewrite startServer_missing.
Qed.






Lemma onDidChange_prompting (h : Host) (s : Server) (extension : Extension) :
  getExtension h csharpDevkitExtensionId = Some extension ->
  _wasActivatedWithCSharpDevkit s = Some false ->
  snd (onDidChange h s) =
    emit restartPrompt
      (emit (AppendLine "Detected new installation of ms-dotnettools.csdevkit") s).
Proof. intros Hext Hflag. unfold onDidChange. run. by rewrite Hext, Hflag. Qed.

(** X7.  The listener never updates the flag: while the instance was
    activated without Devkit and Devkit is installed, each of [n] events in
    a row shows the prompt again, [n] prompts in all, and the events touch
    neither the clients, nor the handle, nor any process. *)
Theorem prompt_repeats_on_every_event (h : Host) (s : Server) (extension : Extension)
    (n : nat) :
  getExtension h csharpDevkitExtensionId = Some extension ->
  _wasActivatedWithCSharpDevkit s = Some false ->
  prompts (afterEvents h n s) = replicate n restartPrompt ++ prompts s /\
  _wasActivatedWithCSharpDevkit (afterEvents h n s) = Some false /\
  clients (afterEvents h n s) = clients s /\
  _languageClient (afterEvents h n s) = _languageClient s /\
  spawned (afterEvents h n s) = spawned s.
Proof.
  intros Hext Hflag. induction n as [|n (Hp & Hf & Hc & Hl & Hs)]; [done|].
  change (afterEvents h (S n) s) with (snd (onDidChange h (afterEvents h n s))).
  rewrite (onDidChange_prompting h _ extension) by done.
  repeat split; try done. cbn [replicate app]. by rewrite <- Hp.
Qed.






(** X11.  After a [stop()] that resolved, another [stop()], on any host,
    resolves and changes nothing. *)
Theorem stop_twice_is_stop_once (h h' : Host) (s s1 : Server) :
  stop h s = (Returns tt, s1) -> stop h' s1 = (Returns tt, s1).
Proof.
  rewrite (stop_run h s), (stop_run h' s1).
  destruct (_languageClient s) as [id|] eqn:Hheld.
  - destruct (clientStopOutcome h id 10000) as [[]|e]; [|done]. by intros [= <-].
  - intros [= <-]. by rewrite Hheld.
Qed.

(** X12.  On an instance without a handle [restart()] is [start()]. *)
Theorem restart_without_handle_is_start (h : Host) (s : Server) :
  _languageClient s = None -> restart h s = start h s.
Proof. intros Hnone. by rewrite restart_run, stop_run, Hnone. Qed.

Lemma length_clients_setPhase (id : nat) (p : Phase) (s : Server) :
  length (clients (setPhase id p s)) = length (clients s).
Proof. unfold setPhase. cbn. apply length_alter. Qed.

Lemma stop_handle (h : Host) (s : Server) :
  match stop h s with
  | (Returns _, s1) =>
      _languageClient s1 = None /\ length (clients s1) = length (clients s)
  | (Throws _, s1) =>
      _languageClient s1 = _languageClient s /\ clients s1 = clients s
  end.
Proof.
  rewrite stop_run. destruct (_languageClient s) as [held|] eqn:Hheld; [|done].
  destruct (clientStopOutcome h held 10000) as [[]|e]; [|done].
  split; [done|]. apply length_alter.
Qed.

(** X13.  In every state the instance reaches, the handle, when set, names
    the client created last. *)
Theorem handle_names_the_newest_client (s : Server) :
  reachable s ->
  forall id, _languageClient s = Some id -> S id = length (clients s).
Proof.
  assert (forall h s0, _languageClient s0 = None ->
            forall id, _languageClient (snd (start h s0)) = Some id ->
                       S id = length (clients (snd (start h s0)))) as Hstart.
  { intros h s0 Hnone id.
    destruct (start_shape h s0) as [_ [(_ & Hl & _) | (c & Hc & Hl)]]; rewrite Hl.
    - congruence.
    - rewrite Hc, length_app. intros [= <-]. cbn. lia. }
  induction 1 as [h | h s _ IH | h s _ IH | h s _ IH].
  - unfold activateRoslynLanguageServer. by apply Hstart.
  - rewrite restart_run. pose proof (stop_handle h s) as Hstop.
    destruct (stop h s) as [[[]|e] s1].
    + apply Hstart, Hstop.
    + cbn. destruct Hstop as [-> ->]. exact IH.
  - pose proof (stop_handle h s) as Hstop.
    destruct (stop h s) as [[[]|e] s1]; cbn.
    + destruct Hstop as [-> _]. done.
    + destruct Hstop as [-> ->]. exact IH.
  - destruct (onDidChange_frame h s) as [Hc Hl]. intros id. rewrite Hl, Hc. apply IH.
Qed.

(** X14.  [stop()] changes neither the activation flag, nor the processes,
    nor the number of clients, nor any client other than the held one.  The
    held client is marked stopped, keeping its trace level, when the
    shutdown resolved, and is left as it was when the shutdown rejected. *)
Theorem stop_touches_only_the_held_client (h : Host) (s : Server) :
  _wasActivatedWithCSharpDevkit (snd (stop h s)) = _wasActivatedWithCSharpDevkit s /\
  spawned (snd (stop h s)) = spawned s /\
  length (clients (snd (stop h s))) = length (clients s) /\
  (forall id, _languageClient s <> Some id ->
     clients (snd (stop h s)) !! id = clients s !! id) /\
  (forall id c, _languageClient s = Some id -> clients s !! id = Some c ->
     clients (snd (stop h s)) !! id =
       match fst (stop h s) with
       | Returns _ => Some {| phase := Stopped; clientTrace := clientTrace c |}
       | Throws _ => Some c
       end).
Proof.
  rewrite stop_run. destruct (_languageClient s) as [held|]; [|done].
  destruct (clientStopOutcome h held 10000) as [[]|e]; cbn.
  - split; [done|]. split; [done|]. split; [apply length_alter|]. split.
    + intros id Hne. apply list_lookup_alter_ne. congruence.
    + intros id c [= ->] Hc. by rewrite list_lookup_alter_eq, Hc.
  - split; [done|]. split; [done|]. split; [done|]. split; [done|].
    by intros id c _ ->.
Qed.

Lemma flagsOf_launchArguments debug logLevel pipe solutionPath starred :
  flagsOf (launchArguments debug logLevel pipe solutionPath starred) =
    expectedFlags debug logLevel pipe solutionPath starred.
Proof.
  unfold launchArguments, expectedFlags.
  destruct debug, (truthyValue logLevel), (truthyValue pipe), solutionPath,
    (truthyValue starred); reflexivity.
Qed.

(** X15.  The argument list reads back, option by option, as what
    [startServer] was given, in the order debug switch, log level, pipe name
    or else solution path, component path; empty strings count as absent.
    It never carries both a pipe name and a solution path, and has at most
    seven tokens. *)
Theorem command_line_reads_back (debug : bool) (logLevel pipe : option string)
    (solutionPath : option Uri) (starred : option string) :
  flagsOf (launchArguments debug logLevel pipe solutionPath starred) =
    expectedFlags debug logLevel pipe solutionPath starred /\
  (valuesOf "--brokeredServicePipeName"
     (flagsOf (launchArguments debug logLevel pipe solutionPath starred)) = [] \/
   valuesOf "--solutionPath"
     (flagsOf (launchArguments debug logLevel pipe solutionPath starred)) = []) /\
  (length (launchArguments debug logLevel pipe solutionPath starred) <= 7)%nat.
Proof.
  split; [apply flagsOf_launchArguments|].
  unfold launchArguments.
  destruct debug, (truthyValue logLevel), (truthyValue pipe), solutionPath,
    (truthyValue starred); cbn; (split; [by (left + right)|lia]).
Qed.

(** X16.  [deactivate()] does nothing before activation.  On an instance
    that was activated, and whose held client (if any) shuts down in time,
    it resolves, clears the handle, leaves no client live and spawns
    nothing. *)
Theorem deactivate_stops_the_held_client (h : Host) :
  deactivate h None = (Returns tt, None) /\
  forall s, reachable s ->
    (forall id, _languageClient s = Some id -> clientStopOutcome h id 10000 = Returns tt) ->
    exists s1,
      deactivate h (Some s) = (Returns tt, Some s1) /\
      _languageClient s1 = None /\
      liveCount s1 = 0%nat /\
      spawned s1 = spawned s.
Proof.
  split; [done|]. intros s Hreach Hstops. unfold deactivate.
  pose proof (stop_ownsLive h s (reachable_ownsLive s Hreach)) as Hstop.
  pose proof (spawned_stop h s) as Hspawned.
  pose proof (stop_run h s) as Hrun.
  destruct (stop h s) as [[[]|e] s1]; cbn in Hspawned.
  - destruct Hstop as [Hnone Hheld]. exists s1.
    split; [done|]. split; [done|]. split; [by apply noLive_liveCount | done].
  - destruct (_languageClient s) as [id|]; [|done].
    by rewrite (Hstops id eq_refl) in Hrun.
Qed.

(** X17.  The starred-suggestions component is optional: when Devkit's
    exports give a pipe name, [startServer] returns whether or not the
    component map, or the key in it, is there; the arguments carry
    [--starredCompletionComponentPath] once, with the component's path,
    when the path is truthy, and not at all otherwise. *)
Theorem component_path_is_optional (h : Host) (s : Server) (extension : Extension)
    (exports : DevkitExports) (pipe : option string) solutionPath logLevel :
  existsSync h (serverPathOf h) = true ->
  getExtension h csharpDevkitExtensionId = Some extension ->
  activate extension = Returns (Some exports) ->
  getBrokeredServiceServerPipeName exports = Some (Returns pipe) ->
  let path :=
    match components exports with
    | Some map => truthyValue (map !! starredSuggestions)
    | None => None
    end in
  let args := launchArguments (waitForDebugger (commonOptions (GetLatestOptions h)))
                logLevel pipe solutionPath path in
  exists s',
    startServer solutionPath logLevel h s = (Returns (spawnFor (serverPathOf h) args), s') /\
    valuesOf "--starredCompletionComponentPath" (flagsOf args) =
      match path with
      | Some component => [Some component]
      | None => []
      end.
Proof.
  intros Hfound Hext Hact Hpipe path args. eexists. split.
  - by rewrite startServer_found, negotiate_run, Hext, Hact, Hpipe.
  - unfold args. rewrite flagsOf_launchArguments. unfold expectedFlags.
    assert (truthyValue path = path) as ->.
    { unfold path. destruct (components exports) as [map|]; [|done].
      destruct (map !! starredSuggestions) as [component|]; [|done].
      cbn. by destruct (String.eqb component "") eqn:Hempty; cbn; rewrite ?Hempty. }
    by destruct (waitForDebugger _), (truthyValue logLevel), (truthyValue pipe),
      solutionPath, path.
Qed.

(** X18.  Without Devkit installed, [startServer] logs [Activating C#
    standalone...] and [Starting server at ...], spawns the server, and
    passes nothing but the debug switch, the log level and the solution
    path. *)
Theorem standalone_launch_has_no_devkit_flags (h : Host) (s : Server)
    solutionPath logLevel :
  existsSync h (serverPathOf h) = true ->
  getExtension h csharpDevkitExtensionId = None ->
  let args := launchArguments (waitForDebugger (commonOptions (GetLatestOptions h)))
                logLevel None solutionPath None in
  startServer solutionPath logLevel h s =
    (Returns (spawnFor (serverPathOf h) args),
     emit (SpawnProcess (spawnFor (serverPathOf h) args))
       (emit (AppendLine ("Starting server at " +:+ serverPathOf h)) (standalone s))) /\
  flagsOf args =
    (if waitForDebugger (commonOptions (GetLatestOptions h)) then [("--debug", None)] else []) ++
    match truthyValue logLevel with
    | Some level => [("--logLevel", Some level)]
    | None => []
    end ++
    match solutionPath with
    | Some solution => [("--solutionPath", Some (fsPath solution))]
    | None => []
    end.
Proof.
  intros Hfound Hext args. split.
  - by rewrite startServer_found, negotiate_run, Hext.
  - unfold args. rewrite flagsOf_launchArguments. unfold expectedFlags. cbn.
    by destruct (waitForDebugger _), (truthyValue logLevel), solutionPath.
Qed.

Lemma razorRegistered_grows (s s' : Server) :
  effects s `suffix_of` effects s' -> razorRegistered s = true -> razorRegistered s' = true.
Proof.
  unfold razorRegistered. intros [new ->]. rewrite existsb_app. intros ->.
  apply orb_true_r.
Qed.

Lemma stop_effects (h : Host) (s : Server) :
  effects s `suffix_of` effects (snd (stop h s)).
Proof.
  rewrite stop_run. destruct (_languageClient s) as [id|]; [|done].
  destruct (clientStopOutcome h id 10000) as [[]|e]; cbn;
    by repeat apply suffix_cons_r.
Qed.

Lemma start_rejects_when_registered (h : Host) (s : Server) :
  razorRegistered s = true -> exists e, fst (start h s) = Throws e.
Proof.
  intros Hregistered. rewrite start_run.
  destruct (getHostExecutableInfo h) as [version|e]; [|by eexists].
  cbn zeta. case_bool_decide; [|by eexists].
  unfold registration. rewrite Hregistered.
  destruct (startServer _ _ h _) as [[child|e] s']; by eexists.
Qed.

(** X19.  Once the Razor commands are registered, that is from the first
    [start()] that got through [registerRazor], every [start()] and every
    [restart()] of the instance rejects, on whatever host, and the commands
    stay registered. *)
Theorem restart_rejects_once_commands_are_registered (h : Host) (s : Server) :
  razorRegistered s = true ->
  (exists e, fst (start h s) = Throws e) /\
  (exists e, fst (restart h s) = Throws e) /\
  razorRegistered (snd (start h s)) = true /\
  razorRegistered (snd (restart h s)) = true.
Proof.
  intros Hregistered.
  pose proof (razorRegistered_grows s _ (stop_effects h s) Hregistered) as Hstopped.
  split; [by apply start_rejects_when_registered|].
  split; [|split].
  - rewrite restart_run. destruct (stop h s) as [[[]|e] s1]; [|by eexists].
    by apply start_rejects_when_registered.
  - eapply razorRegistered_grows; [apply start_shape | done].
  - rewrite restart_run. destruct (stop h s) as [[[]|e] s1]; [|done].
    eapply razorRegistered_grows; [apply start_shape | done].
Qed.

(** ** On the sample hosts *)

Lemma serverPath_option_or_bundled_witness :
  (serverPath (commonOptions (GetLatestOptions linuxHost)) = Some "/opt/roslyn/server" /\
   serverPathOf linuxHost = "/opt/roslyn/server") /\
  (serverPath (commonOptions (GetLatestOptions macHost)) = None /\
   serverPathOf macHost =
     pathJoin macHost [dirname macHost; ".."; ".roslyn"; serverFileNameOf macHost]).
Proof.
  split.
  - split; [reflexivity|].
    destruct (serverPath_option_or_bundled linuxHost newServer) as (_ & Hoption & _).
    apply Hoption; [reflexivity | discriminate].
  - split; [reflexivity|].
    destruct (serverPath_option_or_bundled macHost newServer) as (_ & _ & Hbundled & _).
    apply Hbundled. left. reflexivity.
Defined.

Lemma bundled_server_through_dotnet_on_macOS_witness :
  truthyValue (serverPath (commonOptions (GetLatestOptions macHost))) = None /\
  existsSync macHost (serverPathOf macHost) = true /\
  spawned (snd (startServer None (Some "Information") macHost newServer)) =
    [{| spawnCommand := "dotnet";
        spawnArguments :=
          ["/ext/.roslyn/Microsoft.CodeAnalysis.LanguageServer.dll";
           "--logLevel"; "Information"] |}].
Proof.
  assert (truthyValue (serverPath (commonOptions (GetLatestOptions macHost))) = None)
    as Hunset by reflexivity.
  assert (exists stem,
            pathJoin macHost [dirname macHost; ".."; ".roslyn"; serverFileNameOf macHost] =
              stem +:+ serverFileNameOf macHost) as Hjoin
    by (exists "/ext/.roslyn/"; vm_compute; reflexivity).
  assert (existsSync macHost (serverPathOf macHost) = true) as Hfound
    by (vm_compute; reflexivity).
  assert (negotiate macHost newServer = (Returns (None, None), standalone newServer))
    as Hneg by (vm_compute; reflexivity).
  split; [exact Hunset|]. split; [exact Hfound|].
  destruct (bundled_server_through_dotnet_on_macOS macHost newServer _
              None (Some "Information") _ _ Hunset Hjoin Hfound Hneg) as [_ Hspawned].
  rewrite Hspawned. vm_compute. reflexivity.
Defined.

Lemma devkit_failure_fails_the_launch_witness :
  existsSync failingDevkitHost (serverPathOf failingDevkitHost) = true /\
  getExtension failingDevkitHost csharpDevkitExtensionId =
    Some {| activate := Throws (Error "Devkit failed to activate") |} /\
  startServer None (Some "Debug") failingDevkitHost newServer =
    (Throws (Error "Devkit failed to activate"), withDevkit newServer).
Proof.
  assert (existsSync failingDevkitHost (serverPathOf failingDevkitHost) = true) as Hfound
    by (vm_compute; reflexivity).
  split; [exact Hfound|]. split; [reflexivity|].
  destruct (devkit_failure_fails_the_launch failingDevkitHost newServer
              {| activate := Throws (Error "Devkit failed to activate") |}
              (Error "Devkit failed to activate") None (Some "Debug")
              Hfound eq_refl (or_introl eq_refl)) as [Hrun _].
  exact Hrun.
Defined.


Lemma prompt_repeats_on_every_event_witness :
  _wasActivatedWithCSharpDevkit (snd (start linuxHost newServer)) = Some false /\
  prompts (afterEvents dllDevkitHost 3 (snd (start linuxHost newServer))) =
    [restartPrompt; restartPrompt; restartPrompt].
Proof.
  assert (_wasActivatedWithCSharpDevkit (snd (start linuxHost newServer)) = Some false)
    as Hflag by (vm_compute; reflexivity).
  split; [exact Hflag|].
  destruct (prompt_repeats_on_every_event dllDevkitHost (snd (start linuxHost newServer))
              {| activate := Returns (Some fullExports) |} 3 eq_refl Hflag) as [Hprompts _].
  rewrite Hprompts. vm_compute. reflexivity.
Defined.




Lemma stop_twice_is_stop_once_witness :
  stop linuxHost (snd (start linuxHost newServer)) =
    (Returns tt, snd (stop linuxHost (snd (start linuxHost newServer)))) /\
  stop timeoutHost (snd (stop linuxHost (snd (start linuxHost newServer)))) =
    (Returns tt, snd (stop linuxHost (snd (start linuxHost newServer)))).
Proof.
  assert (stop linuxHost (snd (start linuxHost newServer)) =
            (Returns tt, snd (stop linuxHost (snd (start linuxHost newServer)))))
    as Hstop by (vm_compute; reflexivity).
  split; [exact Hstop|].
  exact (stop_twice_is_stop_once linuxHost timeoutHost _ _ Hstop).
Defined.

Lemma restart_without_handle_is_start_witness :
  _languageClient newServer = None /\
  restart linuxHost newServer = start linuxHost newServer.
Proof.
  split; [reflexivity|].
  exact (restart_without_handle_is_start linuxHost newServer eq_refl).
Defined.

Lemma handle_names_the_newest_client_witness :
  reachable (snd (restart linuxHost (snd (activateRoslynLanguageServer linuxHost)))) /\
  _languageClient (snd (restart linuxHost (snd (activateRoslynLanguageServer linuxHost)))) =
    Some 1%nat /\
  length (clients (snd (restart linuxHost (snd (activateRoslynLanguageServer linuxHost))))) =
    2%nat.
Proof.
  assert (reachable (snd (restart linuxHost (snd (activateRoslynLanguageServer linuxHost)))))
    as Hreach by (apply reach_restart, reach_activate).
  assert (_languageClient
            (snd (restart linuxHost (snd (activateRoslynLanguageServer linuxHost)))) =
          Some 1%nat) as Hheld by (vm_compute; reflexivity).
  split; [exact Hreach|]. split; [exact Hheld|].
  symmetry. exact (handle_names_the_newest_client _ Hreach 1%nat Hheld).
Defined.

Lemma stop_touches_only_the_held_client_witness :
  _languageClient (snd (start linuxHost newServer)) = Some 0%nat /\
  (exists c, clients (snd (start linuxHost newServer)) !! 0%nat = Some c /\
     clientTrace c = Some Messages) /\
  clients (snd (stop linuxHost (snd (start linuxHost newServer)))) !! 0%nat =
    Some {| phase := Stopped; clientTrace := Some Messages |}.
Proof.
  assert (_languageClient (snd (start linuxHost newServer)) = Some 0%nat) as Hheld
    by (vm_compute; reflexivity).
  assert (clients (snd (start linuxHost newServer)) !! 0%nat =
            Some {| phase := Running {| spawnCommand := "/opt/roslyn/server";
                                        spawnArguments :=
                                          ["--logLevel"; "Debug";
                                           "--solutionPath"; "/work/app.sln"] |};
                    clientTrace := Some Messages |}) as Hclient
    by (vm_compute; reflexivity).
  split; [exact Hheld|]. split; [eexists; split; [exact Hclient | reflexivity]|].
  destruct (stop_touches_only_the_held_client linuxHost (snd (start linuxHost newServer)))
    as (_ & _ & _ & _ & Hstopped).
  rewrite (Hstopped 0%nat _ Hheld Hclient). vm_compute. reflexivity.
Defined.

Lemma deactivate_stops_the_held_client_witness :
  reachable (snd (activateRoslynLanguageServer linuxHost)) /\
  exists s1,
    deactivate linuxHost (Some (snd (activateRoslynLanguageServer linuxHost))) =
      (Returns tt, Some s1) /\
    liveCount s1 = 0%nat.
Proof.
  assert (reachable (snd (activateRoslynLanguageServer linuxHost))) as Hreach
    by apply reach_activate.
  split; [exact Hreach|].
  destruct (deactivate_stops_the_held_client linuxHost) as [_ Hstop].
  destruct (Hstop _ Hreach (fun _ _ => eq_refl)) as (s1 & Hrun & _ & Hlive & _).
  exists s1. split; [exact Hrun | exact Hlive].
Defined.

Lemma component_path_is_optional_witness :
  existsSync pipeOnlyDevkitHost (serverPathOf pipeOnlyDevkitHost) = true /\
  components pipeOnlyExports = None /\
  exists s',
    startServer None (Some "Debug") pipeOnlyDevkitHost newServer =
      (Returns {| spawnCommand := "/opt/roslyn/server";
                  spawnArguments :=
                    ["--logLevel"; "Debug"; "--brokeredServicePipeName"; "pipe-7f3a"] |},
       s').
Proof.
  assert (existsSync pipeOnlyDevkitHost (serverPathOf pipeOnlyDevkitHost) = true) as Hfound
    by (vm_compute; reflexivity).
  split; [exact Hfound|]. split; [reflexivity|].
  destruct (component_path_is_optional pipeOnlyDevkitHost newServer
              {| activate := Returns (Some pipeOnlyExports) |} pipeOnlyExports
              (Some "pipe-7f3a") None (Some "Debug") Hfound eq_refl eq_refl eq_refl)
    as (s' & Hrun & _).
  exists s'. rewrite Hrun. reflexivity.
Defined.

Lemma standalone_launch_has_no_devkit_flags_witness :
  existsSync linuxHost (serverPathOf linuxHost) = true /\
  getExtension linuxHost csharpDevkitExtensionId = None /\
  fst (startServer (head (findFiles linuxHost)) (Some "Debug") linuxHost newServer) =
    Returns {| spawnCommand := "/opt/roslyn/server";
               spawnArguments := ["--logLevel"; "Debug"; "--solutionPath"; "/work/app.sln"] |}.
Proof.
  assert (existsSync linuxHost (serverPathOf linuxHost) = true) as Hfound
    by (vm_compute; reflexivity).
  split; [exact Hfound|]. split; [reflexivity|].
  destruct (standalone_launch_has_no_devkit_flags linuxHost newServer
              (head (findFiles linuxHost)) (Some "Debug") Hfound eq_refl) as [Hrun _].
  rewrite Hrun. reflexivity.
Defined.

Lemma restart_rejects_once_commands_are_registered_witness :
  razorRegistered (snd (activateRoslynLanguageServer linuxHost)) = true /\
  exists e, fst (restart linuxHost (snd (activateRoslynLanguageServer linuxHost))) = Throws e.
Proof.
  assert (razorRegistered (snd (activateRoslynLanguageServer linuxHost)) = true)
    as Hregistered by (vm_compute; reflexivity).
  split; [exact Hregistered|].
  destruct (restart_rejects_once_commands_are_registered linuxHost
              (snd (activateRoslynLanguageServer linuxHost)) Hregistered)
    as (_ & Hrestart & _).
  exact Hrestart.
Defined.
